(** * mkslides: the asset-resolution and output-layout engine

    A shallow embedding of [src/mkslides-reveal/markupgenerator.py]
    (class [MarkupGenerator]): the constructor and the private methods
    that compute output paths, resolve themes, render and write the
    markup, copy the referenced images and assemble the index.  They run
    in a state-and-exception monad over a model of what they drive in the
    Python standard library: [pathlib] pure paths (POSIX flavour), a file
    system without symbolic links, [shutil.copy], [shutil.rmtree],
    [logging] and [urllib.parse.urlparse].  The front-matter parser, the
    regular expressions, jinja2, the clock, the directory listing,
    [shutil.copytree] and the address checks of [urlsplit] are
    collaborators the development is abstract in. *)

From Stdlib Require Import Ascii.
From Stdlib Require String.
From stdpp Require Import gmap strings list fin_maps.

(** ** Python exceptions and results *)

Inductive exn :=
| ValueError
| AttributeError
| FileNotFoundError
| FileExistsError
| NotADirectoryError
| IsADirectoryError
| SameFileError
| ShutilError
| TemplateNotFound
| TemplateError
| FrontmatterError.

Inductive result (A : Type) :=
| Ok (a : A)
| Err (e : exn).
Arguments Ok {A} a.
Arguments Err {A} e.

(** ** Strings: the slices and searches of [str] that [pathlib] uses *)

Module pystr.

(** [s.rfind(c)], with [None] for Python's -1. *)
Fixpoint rfind (c : ascii) (s : string) : option nat :=
  match s with
  | EmptyString => None
  | String a r =>
      match rfind c r with
      | Some i => Some (S i)
      | None => if Ascii.eqb a c then Some 0 else None
      end
  end.

(** [s[i:]] *)
Definition slice_from (i : nat) (s : string) : string :=
  String.substring i (String.length s - i) s.

(** [s[:i]] *)
Definition slice_to (i : nat) (s : string) : string :=
  String.substring 0 i s.

(** [s.endswith(t)] *)
Definition endswith (s t : string) : bool :=
  (String.length t <=? String.length s) &&
  String.eqb (slice_from (String.length s - String.length t) s) t.

(** [s.split(c)] for a one-character separator. *)
Fixpoint split (c : ascii) (s : string) : list string :=
  match s with
  | EmptyString => [EmptyString]
  | String a r =>
      if Ascii.eqb a c then EmptyString :: split c r
      else match split c r with
           | x :: xs => String a x :: xs
           | [] => [String a EmptyString]
           end
  end.

(** [s.startswith(t)] *)
Definition startswith (s t : string) : bool := String.prefix t s.

(** [sep.join(l)] *)
Fixpoint join (sep : string) (l : list string) : string :=
  match l with
  | [] => EmptyString
  | [x] => x
  | x :: r => x +:+ sep +:+ join sep r
  end.

End pystr.

(** ** pathlib: pure POSIX paths *)

(** A pure path is its anchor (the empty string for a relative path, the
    root otherwise) and the list of its segments after the anchor
    ([PurePath._tail]).  Parsing has already dropped empty and single-dot
    segments; double-dot segments are kept, as pathlib keeps them. *)
Record PurePath := mkPath { anchor : string; tail : list string }.

#[global] Instance PurePath_eq_dec : EqDecision PurePath.
Proof. solve_decision. Defined.

Module pathlib.

(** [PurePosixPath(s)]: the root is one slash, or two when the string
    starts with exactly two; empty and single-dot segments are dropped. *)
Definition Path (s : string) : PurePath :=
  let root :=
    if pystr.startswith s "///" then "/"
    else if pystr.startswith s "//" then "//"
    else if pystr.startswith s "/" then "/"
    else EmptyString in
  mkPath root
    (List.filter (fun seg => negb (String.eqb seg EmptyString || String.eqb seg "."))
       (pystr.split "/"%char s)).

(** [p.is_absolute()] *)
Definition is_absolute (p : PurePath) : bool :=
  negb (String.eqb (anchor p) EmptyString).

(** [p.name]: the last segment, empty for a bare anchor. *)
Definition name (p : PurePath) : string := List.last (tail p) EmptyString.

(** [p.parent]: the path without its last segment; a bare anchor is its
    own parent. *)
Definition parent (p : PurePath) : PurePath :=
  mkPath (anchor p) (removelast (tail p)).

(** [a / b] and [Path(a, b)]: an absolute right operand replaces the left
    one. *)
Definition joinpath (a b : PurePath) : PurePath :=
  if is_absolute b then b else mkPath (anchor a) (tail a ++ tail b).

(** [str(p)] *)
Definition str (p : PurePath) : string :=
  match tail p with
  | [] => if is_absolute p then anchor p else "."
  | _ => anchor p +:+ pystr.join "/" (tail p)
  end.

(** The test [0 < i < len(name) - 1] shared by [suffix] and [stem]. *)
Definition suffix_index (nm : string) : option nat :=
  match pystr.rfind "."%char nm with
  | Some i =>
      if (0 <? i) && (i <? String.length nm - 1) then Some i else None
  | None => None
  end.

(** [PurePath.suffix], on the name. *)
Definition suffix_of_name (nm : string) : string :=
  match suffix_index nm with
  | Some i => pystr.slice_from i nm
  | None => EmptyString
  end.

(** [PurePath.stem], on the name. *)
Definition stem_of_name (nm : string) : string :=
  match suffix_index nm with
  | Some i => pystr.slice_to i nm
  | None => nm
  end.

Definition suffix (p : PurePath) : string := suffix_of_name (name p).
Definition stem (p : PurePath) : string := stem_of_name (name p).

(** [p.with_name(nm)] for a valid [nm]: replace the last segment. *)
Definition with_name (p : PurePath) (nm : string) : PurePath :=
  mkPath (anchor p) (removelast (tail p) ++ [nm]).

(** [p.with_suffix(sfx)] for a valid suffix [sfx] (here always [.html]):
    [ValueError] on an empty name, else the old suffix is cut off the name
    ([name[:-len(old_suffix)]]) or, when there is none, the name is kept
    whole, and [sfx] is appended. *)
Definition with_suffix (p : PurePath) (sfx : string) : result PurePath :=
  let nm := name p in
  if String.eqb nm EmptyString then Err ValueError
  else
    let old_suffix := suffix p in
    let nm' :=
      if String.eqb old_suffix EmptyString then nm +:+ sfx
      else pystr.slice_to (String.length nm - String.length old_suffix) nm +:+ sfx in
    Ok (with_name p nm').

(** Strip the longest common prefix of two segment lists. *)
Fixpoint strip_common (a b : list string) : list string * list string :=
  match a, b with
  | x :: a', y :: b' => if decide (x = y) then strip_common a' b' else (a, b)
  | _, _ => (a, b)
  end.

(** [self.is_relative_to(other)]: [other] is [self] or one of its parents. *)
Definition is_relative_to (self other : PurePath) : bool :=
  bool_decide (anchor self = anchor other) &&
  bool_decide (snd (strip_common (tail self) (tail other)) = []).

(** [self.relative_to(other, walk_up=w)].  pathlib walks from [other] up
    through its parents to the first one [self] is relative to; each
    parent left behind costs one double-dot segment, is refused when
    [walk_up] is false and is refused when it is itself named double-dot.
    The parents left behind are exactly the segments of [other] after the
    common prefix.  Different anchors are a [ValueError]. *)
Definition relative_to (self other : PurePath) (walk_up : bool) : result PurePath :=
  if decide (anchor self = anchor other) then
    let '(rest_self, rest_other) := strip_common (tail self) (tail other) in
    match rest_other with
    | [] => Ok (mkPath EmptyString rest_self)
    | _ =>
        if walk_up then
          if bool_decide (".." ∈ rest_other) then Err ValueError
          else Ok (mkPath EmptyString (replicate (length rest_other) ".." ++ rest_self))
        else Err ValueError
    end
  else Err ValueError.

(** [fnmatch] of a name against the glob pattern [*.md]. *)
Definition fnmatch_md (nm : string) : bool := pystr.endswith nm ".md".

End pathlib.

(** Following a relative reference from a directory, one segment at a
    time: a double-dot segment leaves the current directory for its parent
    (the root is its own parent), any other segment enters the child of
    that name.  This is how a browser resolves a relative link against the
    page's directory and how the file system walks a relative path in a
    tree without symbolic links. *)
Definition follow_segment (dir : list string) (seg : string) : list string :=
  if decide (seg = "..") then removelast dir else dir ++ [seg].

Definition follow (dir : PurePath) (rel : PurePath) : PurePath :=
  mkPath (anchor dir) (foldl follow_segment (tail dir) (tail rel)).

(** ** The file system

    A tree without symbolic links, keyed by the segments of the absolute
    path; the root is always a directory. *)

Inductive node :=
| File (content : string)
| Dir.

Abbreviation filesystem := (gmap (list string) node).

Module os.

Definition stat (fs : filesystem) (k : list string) : option node :=
  match k with
  | [] => Some Dir
  | _ => fs !! k
  end.

Definition exists_ (fs : filesystem) (k : list string) : bool :=
  match stat fs k with Some _ => true | None => false end.

Definition is_dir (fs : filesystem) (k : list string) : bool :=
  match stat fs k with Some Dir => true | _ => false end.

(** The key of a path: its segments walked from the root, or from the
    working directory for a relative path.  A double-dot segment steps
    back to the parent; that the directory stepped out of exists is not
    checked here. *)
Definition path_key (cwd : PurePath) (p : PurePath) : list string :=
  foldl follow_segment (if pathlib.is_absolute p then [] else tail cwd) (tail p).

(** The error of [os.lstat] on a missing entry of [above]:
    [NotADirectoryError] when [above] is a regular file,
    [FileNotFoundError] otherwise. *)
Definition lstat_error (fs : filesystem) (above : list string) : exn :=
  match stat fs above with
  | Some (File _) => NotADirectoryError
  | _ => FileNotFoundError
  end.

(** [os.path.realpath(p, strict=strict)] below the directory [above]:
    a double-dot segment pops, any other segment must name an existing
    entry in strict mode, where a missing one is the error of
    [os.lstat]. *)
Fixpoint realpath (fs : filesystem) (strict : bool)
    (above : list string) (segs : list string) : result (list string) :=
  match segs with
  | [] => Ok above
  | seg :: rest =>
      if decide (seg = "..") then realpath fs strict (removelast above) rest
      else
        let here := above ++ [seg] in
        if strict && negb (exists_ fs here) then Err (lstat_error fs above)
        else realpath fs strict here rest
  end.

(** [Path.mkdir(parents=True, exist_ok=True)]: every missing directory
    from the root down to the path is created; a regular file on the way
    is an error. *)
Fixpoint makedirs (fs : filesystem)
    (above : list string) (segs : list string) : result filesystem :=
  match segs with
  | [] => Ok fs
  | seg :: rest =>
      let here := above ++ [seg] in
      match stat fs here with
      | Some Dir => makedirs fs here rest
      | Some (File _) =>
          Err (match rest with [] => FileExistsError | _ => NotADirectoryError end)
      | None => makedirs (<[here := Dir]> fs) here rest
      end
  end.

Definition mkdir_parents (fs : filesystem) (k : list string) : result filesystem :=
  makedirs fs [] k.

(** Opening [k] for writing and storing [content]: the parent must be a
    directory and [k] must not be one; what was there is replaced. *)
Definition write_file (fs : filesystem) (k : list string) (content : string)
    : result filesystem :=
  match stat fs k with
  | Some Dir => Err IsADirectoryError
  | _ =>
      match stat fs (removelast k) with
      | Some Dir => Ok (<[k := File content]> fs)
      | Some (File _) => Err NotADirectoryError
      | None => Err FileNotFoundError
      end
  end.

Definition read_file (fs : filesystem) (k : list string) : result string :=
  match stat fs k with
  | Some (File content) => Ok content
  | Some Dir => Err IsADirectoryError
  | None => Err FileNotFoundError
  end.

(** [shutil.copy(src, dst)]: a directory destination stands for the
    entry of the source's base name in it; copying a file onto itself is
    refused; the source is read and written to the destination. *)
Definition shutil_copy (fs : filesystem) (src dst : list string) : result filesystem :=
  let dst := if is_dir fs dst then dst ++ [List.last src EmptyString] else dst in
  if exists_ fs src && bool_decide (src = dst) then Err SameFileError
  else
    match read_file fs src with
    | Ok content => write_file fs dst content
    | Err e => Err e
    end.

End os.

(** ** urllib.parse: the scheme of a URL and the errors of [urlparse] *)

Module urllib.

Definition is_c0_control_or_space (c : ascii) : bool := nat_of_ascii c <=? 32.

Definition is_unsafe_url_byte (c : ascii) : bool :=
  let n := nat_of_ascii c in (n =? 9) || (n =? 10) || (n =? 13).

Definition is_ascii_alpha (c : ascii) : bool :=
  let n := nat_of_ascii c in
  ((65 <=? n) && (n <=? 90)) || ((97 <=? n) && (n <=? 122)).

Definition is_ascii_digit (c : ascii) : bool :=
  let n := nat_of_ascii c in (48 <=? n) && (n <=? 57).

(** [scheme_chars]: letters, digits, plus, minus and dot. *)
Definition is_scheme_char (c : ascii) : bool :=
  let n := nat_of_ascii c in
  is_ascii_alpha c || is_ascii_digit c || (n =? 43) || (n =? 45) || (n =? 46).

Definition lower_char (c : ascii) : ascii :=
  let n := nat_of_ascii c in
  if (65 <=? n) && (n <=? 90) then ascii_of_nat (n + 32) else c.

Fixpoint lstrip (s : string) : string :=
  match s with
  | EmptyString => EmptyString
  | String c r => if is_c0_control_or_space c then lstrip r else s
  end.

Fixpoint remove_unsafe (s : string) : string :=
  match s with
  | EmptyString => EmptyString
  | String c r =>
      if is_unsafe_url_byte c then remove_unsafe r else String c (remove_unsafe r)
  end.

(** [s.find(c)], with [None] for Python's -1. *)
Fixpoint find (c : ascii) (s : string) : option nat :=
  match s with
  | EmptyString => None
  | String a r => if Ascii.eqb a c then Some 0 else S <$> find c r
  end.

Fixpoint forall_chars (f : ascii → bool) (s : string) : bool :=
  match s with
  | EmptyString => true
  | String c r => f c && forall_chars f r
  end.

Fixpoint map_chars (f : ascii → ascii) (s : string) : string :=
  match s with
  | EmptyString => EmptyString
  | String c r => String (f c) (map_chars f r)
  end.

(** [urlparse(url).scheme]: after leading control characters and blanks
    and all tabs and line breaks are removed, the text before the first
    colon, lowered, when that text is not empty, starts with an ASCII
    letter and holds scheme characters only; empty otherwise. *)
Definition urlparse_scheme (url : string) : string :=
  let url := remove_unsafe (lstrip url) in
  match find ":"%char url, url with
  | Some (S i), String c0 _ =>
      if is_ascii_alpha c0 && forall_chars is_scheme_char (pystr.slice_to (S i) url)
      then map_chars lower_char (pystr.slice_to (S i) url)
      else EmptyString
  | _, _ => EmptyString
  end.

(** What [urlsplit] goes on with after the scheme test: the text after
    the colon when a scheme was found, the whole text otherwise. *)
Definition urlparse_rest (url : string) : string :=
  let url := remove_unsafe (lstrip url) in
  match find ":"%char url, url with
  | Some (S i), String c0 _ =>
      if is_ascii_alpha c0 && forall_chars is_scheme_char (pystr.slice_to (S i) url)
      then pystr.slice_from (S (S i)) url
      else url
  | _, _ => url
  end.

(** The characters that end a network location: slash, question mark
    and hash. *)
Definition is_netloc_delimiter (c : ascii) : bool :=
  let n := nat_of_ascii c in (n =? 47) || (n =? 63) || (n =? 35).

Fixpoint take_until (f : ascii → bool) (s : string) : string :=
  match s with
  | EmptyString => EmptyString
  | String c r => if f c then EmptyString else String c (take_until f r)
  end.

(** The network location ([_splitnetloc(url, 2)]): there is one when the
    text after the scheme starts with two slashes; it runs from there to
    the first delimiter. *)
Definition urlparse_netloc (url : string) : option string :=
  match urlparse_rest url with
  | String c1 (String c2 r) =>
      if Ascii.eqb c1 "/" && Ascii.eqb c2 "/"
      then Some (take_until is_netloc_delimiter r) else None
  | _ => None
  end.

(** [c in s] *)
Definition mentions (c : ascii) (s : string) : bool :=
  match find c s with Some _ => true | None => false end.

(** [s.isascii()] *)
Definition isascii (s : string) : bool :=
  forall_chars (λ c, nat_of_ascii c <? 128) s.

(** The network locations [urlsplit] refuses with a [ValueError]: one
    with an opening bracket and no closing one or the reverse; and, among
    those with both brackets or with a character outside ASCII, the ones
    that fail [address_check], which stands for what the library tests
    there (the bracketed host is an IPv6 or IPvFuture address, the NFKC
    form of the location brings in no delimiter). *)
Definition netloc_refused (address_check : string → bool) (netloc : string) : bool :=
  let opening := mentions "["%char netloc in
  let closing := mentions "]"%char netloc in
  if xorb opening closing then true
  else if (opening && closing) || negb (isascii netloc) then negb (address_check netloc)
  else false.

(** [urlparse(url).scheme], or the [ValueError] of [urlparse(url)]. *)
Definition urlparse (address_check : string → bool) (url : string) : result string :=
  match urlparse_netloc url with
  | Some netloc =>
      if netloc_refused address_check netloc then Err ValueError
      else Ok (urlparse_scheme url)
  | None => Ok (urlparse_scheme url)
  end.

End urllib.

(** ** Python values, configuration, logging *)

(** The values a YAML configuration or a front-matter block can hold. *)
#[local] Unset Elimination Schemes.
Inductive pyval :=
| PyNone
| PyBool (b : bool)
| PyInt (z : Z)
| PyStr (s : string)
| PyList (items : list pyval)
| PyDict (entries : list (string * pyval)).
#[local] Set Elimination Schemes.

(** Truthiness, as [if value:] tests it. *)
Definition truthy (v : pyval) : bool :=
  match v with
  | PyNone => false
  | PyBool b => b
  | PyInt z => negb (z =? 0)%Z
  | PyStr s => negb (String.eqb s EmptyString)
  | PyList items => match items with [] => false | _ => true end
  | PyDict entries => match entries with [] => false | _ => true end
  end.

Fixpoint assoc (k : string) (entries : list (string * pyval)) : option pyval :=
  match entries with
  | [] => None
  | (k', v) :: rest => if String.eqb k k' then Some v else assoc k rest
  end.

(** Modelled from the spec: the class [Config] of the module [config],
    which is not part of the sources at hand.  The configuration is a
    nested key lookup that returns an absent value ([None]), never an
    error, when a key is unset. *)
Record Config := mkConfig { config_data : pyval }.

Fixpoint lookup_keys (v : pyval) (keys : list string) : pyval :=
  match keys with
  | [] => v
  | k :: rest =>
      match v with
      | PyDict entries =>
          match assoc k entries with
          | Some v' => lookup_keys v' rest
          | None => PyNone
          end
      | _ => PyNone
      end
  end.

Definition Config_get (c : Config) (keys : list string) : pyval :=
  lookup_keys (config_data c) keys.

Inductive level := INFO | WARNING.

(** The double-quote character of the log messages. *)
Definition dq : string := String (ascii_of_nat 34) EmptyString.

Definition quoted (s : string) : string := dq +:+ s +:+ dq.

(** ** The world the generator runs in, and its monad

    Python statements read and change the file system and append to the
    log; an exception stops the computation and leaves every effect made
    so far in place. *)

Record world := mkWorld {
  fs : filesystem;
  cwd : PurePath;
  log : list (level * string)
}.

Definition M (A : Type) : Type := world → result A * world.

Definition ret {A} (a : A) : M A := λ w, (Ok a, w).

Definition raise {A} (e : exn) : M A := λ w, (Err e, w).

Definition bind {A B} (c : M A) (k : A → M B) : M B :=
  λ w, match c w with
       | (Ok a, w') => k a w'
       | (Err e, w') => (Err e, w')
       end.

Declare Scope py_scope.
Delimit Scope py_scope with py.
Notation "x <- c ;; k" := (bind c (λ x, k))
  (at level 100, c at next level, right associativity) : py_scope.
Notation "c ;; k" := (bind c (λ _, k))
  (at level 100, right associativity) : py_scope.
Local Open Scope py_scope.

Definition lift {A} (r : result A) : M A :=
  match r with Ok a => ret a | Err e => raise e end.

(** A statement that changes the file system, or raises and changes
    nothing. *)
Definition update_fs (f : filesystem → result filesystem) : M unit :=
  λ w, match f (fs w) with
       | Ok fs' => (Ok tt, mkWorld fs' (cwd w) (log w))
       | Err e => (Err e, w)
       end.

Definition read_fs {A} (f : filesystem → A) : M A := λ w, (Ok (f (fs w)), w).

Definition emit (lv : level) (msg : string) : M unit :=
  λ w, (Ok tt, mkWorld (fs w) (cwd w) (log w ++ [(lv, msg)])).

Definition logger_info (msg : string) : M unit := emit INFO msg.
Definition logger_warning (msg : string) : M unit := emit WARNING msg.

(** [for x in l: body(x)] *)
Fixpoint for_each {A} (l : list A) (body : A → M unit) : M unit :=
  match l with
  | [] => ret tt
  | x :: rest => body x ;; for_each rest body
  end.

(** The methods of [pathlib.Path] that touch the file system. *)

Definition key (p : PurePath) : M (list string) := λ w, (Ok (os.path_key (cwd w) p), w).

Definition Path_exists (p : PurePath) : M bool :=
  k <- key p ;; read_fs (λ fs, os.exists_ fs k).

Definition Path_is_dir (p : PurePath) : M bool :=
  k <- key p ;; read_fs (λ fs, os.is_dir fs k).

Definition Path_mkdir_parents (p : PurePath) : M unit :=
  k <- key p ;; update_fs (λ fs, os.mkdir_parents fs k).

Definition Path_write_text (p : PurePath) (content : string) : M unit :=
  k <- key p ;; update_fs (λ fs, os.write_file fs k content).

Definition Path_read_text (p : PurePath) : M string :=
  k <- key p ;; r <- read_fs (λ fs, os.read_file fs k) ;; lift r.

(** [p.absolute()] *)
Definition Path_absolute (p : PurePath) : M PurePath :=
  λ w, (Ok (if pathlib.is_absolute p then p else pathlib.joinpath (cwd w) p), w).

(** [p.resolve(strict=strict)]: the absolute path with the double-dot
    segments walked; in strict mode every entry on the way must exist.
    [os.path.realpath] starts an absolute path at the root of one slash,
    also when the path is written with two, and a relative path at the
    working directory. *)
Definition Path_resolve (p : PurePath) (strict : bool) : M PurePath :=
  λ w,
    let '(root, above) :=
      if pathlib.is_absolute p then ("/", []) else (anchor (cwd w), tail (cwd w)) in
    match os.realpath (fs w) strict above (tail p) with
    | Ok k => (Ok (mkPath root k), w)
    | Err e => (Err e, w)
    end.

Definition shutil_copy (src dst : PurePath) : M unit :=
  s <- key src ;; d <- key dst ;; update_fs (λ fs, os.shutil_copy fs s d).

(** ** The markup generator *)

(** What a template receives as its [theme]: the URL as configured, or
    the relative path of the copied file. *)
Inductive theme_ref :=
| ThemeUrl (url : string)
| ThemePath (p : PurePath).

(** The keyword arguments of the slideshow template. *)
Record slideshow_context := mkSlideshowContext {
  sc_theme : option theme_ref;
  sc_revealjs_path : PurePath;
  sc_markdown_data_options : gmap string pyval;
  sc_markdown : string;
  sc_revealjs_config : pyval
}.

Record slideshow_entry := mkEntry { title : pyval; location : PurePath }.

(** The keyword arguments of the index template. *)
Record index_context (datetime : Type) := mkIndexContext {
  ic_title : pyval;
  ic_theme : option theme_ref;
  ic_slideshows : list slideshow_entry;
  ic_build_datetime : datetime
}.
Arguments mkIndexContext {datetime}.

(** The attributes of a [MarkupGenerator] object. *)
Record MarkupGenerator := mkGenerator {
  config : Config;
  md_root_path : PurePath;
  output_directory_path : PurePath;
  assets_path : PurePath;
  revealjs_path : PurePath;
  output_assets_path : PurePath;
  output_revealjs_path : PurePath
}.

(** The option names that [__process_markdown_file] forwards. *)
Definition markdown_option_names : list string :=
  ["separator"; "separator-vertical"; "separator-notes"; "charset"].

(** The collaborators outside this module: the front-matter parser, the
    three regular expressions of the module [constants] (each gives the
    [location] group of its matches, in the order [finditer] yields them),
    the template loader and renderer of jinja2, the clock, the files
    that [Path.glob] with the pattern [**/*.md] yields below a directory
    (listed once, when the loop starts, in the order of the operating
    system), the recursive directory copy of [shutil] (which may leave
    a partial copy behind when it raises) and the address checks of
    [urlsplit] on a network location (see [urllib.netloc_refused]). *)
Class Collaborators := {
  frontmatter_parse : string → result (gmap string pyval * string);
  MD_IMAGE_REGEX : string → list string;
  HTML_IMAGE_REGEX : string → list string;
  HTML_BACKGROUND_IMAGE_REGEX : string → list string;
  template : Type;
  get_template : world → pyval → result template;
  render_slideshow : template → slideshow_context → result string;
  datetime : Type;
  datetime_now : datetime;
  render_index : template → index_context datetime → result string;
  glob_md : filesystem → PurePath → list PurePath;
  shutil_copytree : filesystem → list string → list string → result unit * filesystem;
  urlsplit_address_check : string → bool
}.

Section generator.

Context `{!Collaborators}.

Definition copytree (src dst : PurePath) : M unit :=
  s <- key src ;; d <- key dst ;;
  λ w, let '(r, fs') := shutil_copytree (fs w) s d in (r, mkWorld fs' (cwd w) (log w)).

(** [MarkupGenerator.__init__] *)
Definition __init__ (config : Config) (md_root_path output_directory_path : PurePath)
    : M MarkupGenerator :=
  md_root_path <- Path_resolve md_root_path true ;;
  logger_info ("Markdown root directory: " +:+ quoted (pathlib.str md_root_path)) ;;
  output_directory_path <- Path_resolve output_directory_path false ;;
  logger_info ("Requested output directory: " +:+ quoted (pathlib.str output_directory_path)) ;;
  assets_path <- Path_resolve (pathlib.Path "assets") true ;;
  revealjs_path <-
    Path_resolve (pathlib.joinpath assets_path (pathlib.Path "reveal.js-master")) true ;;
  let output_assets_path := pathlib.joinpath output_directory_path (pathlib.Path "assets") in
  let output_revealjs_path := pathlib.joinpath output_assets_path (pathlib.Path "reveal-js") in
  ret (mkGenerator config md_root_path output_directory_path assets_path revealjs_path
         output_assets_path output_revealjs_path).

Variable self : MarkupGenerator.

(** [__is_absolute_url]: [bool(urlparse(url).scheme)]. *)
Definition __is_absolute_url (url : string) : result bool :=
  match urllib.urlparse urlsplit_address_check url with
  | Ok scheme => Ok (negb (String.eqb scheme EmptyString))
  | Err e => Err e
  end.

(** [__create_file] *)
Definition __create_file (destination_path : PurePath) (content : string) : M unit :=
  present <- Path_exists destination_path ;;
  if present then
    Path_write_text destination_path content ;;
    logger_info ("Overwritten: " +:+ quoted (pathlib.str destination_path))
  else
    Path_mkdir_parents (pathlib.parent destination_path) ;;
    Path_write_text destination_path content ;;
    logger_info ("Created: " +:+ quoted (pathlib.str destination_path)).

(** [__copy_tree] *)
Definition __copy_tree (source_path destination_path : PurePath) : M unit :=
  overwrite <- Path_exists destination_path ;;
  Path_mkdir_parents (pathlib.parent destination_path) ;;
  copytree source_path destination_path ;;
  let action := if overwrite : bool then "Overwritten" else "Copied" in
  src <- Path_absolute source_path ;;
  dst <- Path_absolute destination_path ;;
  logger_info (action +:+ " directory " +:+ quoted (pathlib.str src)
               +:+ " to " +:+ quoted (pathlib.str dst)).

(** [__copy_file] *)
Definition __copy_file (source_path destination_path : PurePath) : M unit :=
  overwrite <- Path_exists destination_path ;;
  Path_mkdir_parents (pathlib.parent destination_path) ;;
  shutil_copy source_path destination_path ;;
  let action := if overwrite : bool then "Overwritten" else "Copied" in
  src <- Path_absolute source_path ;;
  dst <- Path_absolute destination_path ;;
  logger_info (action +:+ " file " +:+ quoted (pathlib.str src)
               +:+ " to " +:+ quoted (pathlib.str dst)).

(** [__copy] *)
Definition __copy (source_path destination_path : PurePath) : M unit :=
  is_dir <- Path_is_dir source_path ;;
  if is_dir then __copy_tree source_path destination_path
  else __copy_file source_path destination_path.

(** [__copy_to_output] *)
Definition __copy_to_output (source_path destination_path : PurePath) : M PurePath :=
  __copy source_path destination_path ;;
  relative_path <- lift (pathlib.relative_to destination_path (output_directory_path self) false) ;;
  ret relative_path.

(** [__copy_to_output_relative_to_md_root]: [None] after the warning. *)
Definition __copy_to_output_relative_to_md_root (source_path : PurePath)
    : M (option PurePath) :=
  source_path <- Path_resolve source_path true ;;
  if negb (pathlib.is_relative_to source_path (md_root_path self)) then
    src <- Path_absolute source_path ;;
    logger_warning (quoted (pathlib.str src)
                    +:+ " is outside the markdown root directory, skipped!" +:+ dq) ;;
    ret None
  else
    relative_path <- lift (pathlib.relative_to source_path (md_root_path self) false) ;;
    let destination_path := pathlib.joinpath (output_directory_path self) relative_path in
    __copy source_path destination_path ;;
    ret (Some relative_path).

(** The body of the inner loop of [__copy_images], for one match. *)
Definition copy_image (md_file : PurePath) (location : string) : M unit :=
  image <- Path_resolve
             (pathlib.joinpath (pathlib.parent md_file) (pathlib.Path location)) true ;;
  __copy_to_output_relative_to_md_root image ;;
  ret tt.

(** The locations [__copy_images] visits: the matches of the three
    regular expressions, one expression after the other. *)
Definition image_locations (markdown : string) : list string :=
  MD_IMAGE_REGEX markdown ++ HTML_IMAGE_REGEX markdown
  ++ HTML_BACKGROUND_IMAGE_REGEX markdown.

(** [__copy_images] *)
Definition __copy_images (md_file : PurePath) (markdown : string) : M unit :=
  for_each (image_locations markdown) (copy_image md_file).

(** Where [__copy_theme] copies a local theme to:
    [self.output_assets_path / theme_path.name]. *)
Definition theme_output_path_of (theme_path : PurePath) : PurePath :=
  pathlib.joinpath (output_assets_path self) (pathlib.Path (pathlib.name theme_path)).

(** [__copy_theme]; [urlparse] raises [AttributeError] on a truthy value
    that is not a string. *)
Definition __copy_theme (file_using_theme_path : PurePath) (theme : pyval) : M theme_ref :=
  match theme with
  | PyStr theme =>
      is_absolute_url <- lift (__is_absolute_url theme) ;;
      if is_absolute_url : bool then
        logger_info ("Using theme " +:+ quoted theme
                     +:+ " is an absolute URL, no copy necessary") ;;
        ret (ThemeUrl theme)
      else
        theme_path <- Path_resolve (pathlib.Path theme) true ;;
        logger_info ("Using theme " +:+ quoted (pathlib.str theme_path)) ;;
        let theme_output_path := theme_output_path_of theme_path in
        __copy_to_output theme_path theme_output_path ;;
        relative_theme_path <-
          lift (pathlib.relative_to theme_output_path
                  (pathlib.parent file_using_theme_path) true) ;;
        ret (ThemePath relative_theme_path)
  | _ => raise AttributeError
  end.

(** The theme of a template: [None] unless the configured value is
    truthy ([if theme := self.config.get(section, "theme")]). *)
Definition configured_theme (section : string) (file_using_theme_path : PurePath)
    : M (option theme_ref) :=
  let theme := Config_get (config self) [section; "theme"] in
  if truthy theme then
    relative_theme_path <- __copy_theme file_using_theme_path theme ;;
    ret (Some relative_theme_path)
  else ret None.

(** The loop that fills [markdown_data_options]. *)
Definition collect_markdown_data_options : gmap string pyval :=
  foldl (λ markdown_data_options option,
           let value := Config_get (config self) ["slides"; option] in
           if truthy value then <[option := value]> markdown_data_options
           else markdown_data_options)
        ∅ markdown_option_names.

(** The output path of a Markdown file, as [__process_markdown_file]
    computes it: the path relative to the Markdown root, below the output
    directory, with the suffix [.html]. *)
Definition output_markup_path_of (md_file : PurePath) : result PurePath :=
  match pathlib.relative_to md_file (md_root_path self) false with
  | Ok relative =>
      let output_markup_path := pathlib.joinpath (output_directory_path self) relative in
      pathlib.with_suffix output_markup_path ".html"
  | Err e => Err e
  end.

(** [__process_markdown_file] up to and including the call of
    [__create_file] on the rendered markup (the source's lines 81 to 131);
    it hands on the metadata, the Markdown body and the output path. *)
Definition write_markup (md_file : PurePath)
    : M (gmap string pyval * string * PurePath) :=
  logger_info ("Processing markdown file: " +:+ quoted (pathlib.str md_file)) ;;
  content <- Path_read_text md_file ;;
  parsed <- lift (frontmatter_parse content) ;;
  let '(metadata, markdown) := parsed in
  output_markup_path <- lift (output_markup_path_of md_file) ;;
  relative_revealjs_path <-
    lift (pathlib.relative_to (output_revealjs_path self)
            (pathlib.parent output_markup_path) true) ;;
  let revealjs_config := Config_get (config self) ["reveal.js"] in
  relative_theme_path <- configured_theme "slides" output_markup_path ;;
  slideshow_template <- (λ w, (get_template w (Config_get (config self) ["slides"; "template"]), w)) ;;
  let markdown_data_options := collect_markdown_data_options in
  markup <- lift (render_slideshow slideshow_template
                    (mkSlideshowContext relative_theme_path relative_revealjs_path
                       markdown_data_options markdown revealjs_config)) ;;
  __create_file output_markup_path markup ;;
  ret (metadata, markdown, output_markup_path).

(** [__process_markdown_file]: the markup is written, then the images
    are copied. *)
Definition __process_markdown_file (md_file : PurePath)
    : M (gmap string pyval * PurePath) :=
  written <- write_markup md_file ;;
  let '(metadata, markdown, output_markup_path) := written in
  __copy_images md_file markdown ;;
  ret (metadata, output_markup_path).

(** The title of an index entry: [metadata.get("title", md_file.stem)]. *)
Definition entry_title (metadata : gmap string pyval) (md_file : PurePath) : pyval :=
  default (PyStr (pathlib.stem md_file)) (metadata !! "title").

(** The loop of [__process_markdown_directory] over the files the glob
    yields; [slideshows] is the list built so far. *)
Fixpoint process_files (md_files : list PurePath) (slideshows : list slideshow_entry)
    : M (list slideshow_entry) :=
  match md_files with
  | [] => ret slideshows
  | md_file :: rest =>
      processed <- __process_markdown_file md_file ;;
      let '(metadata, output_markup_path) := processed in
      location <- lift (pathlib.relative_to output_markup_path
                          (output_directory_path self) false) ;;
      process_files rest (slideshows ++ [mkEntry (entry_title metadata md_file) location])
  end.

(** [__process_markdown_directory] *)
Definition __process_markdown_directory : M unit :=
  md_files <- read_fs (λ fs, glob_md fs (md_root_path self)) ;;
  slideshows <- process_files md_files [] ;;
  logger_info "Generating index" ;;
  let index_path := pathlib.joinpath (output_directory_path self) (pathlib.Path "index.html") in
  relative_theme_path <- configured_theme "index" index_path ;;
  index_template <- (λ w, (get_template w (Config_get (config self) ["index"; "template"]), w)) ;;
  content <- lift (render_index index_template
                     (mkIndexContext (Config_get (config self) ["index"; "title"])
                        relative_theme_path slideshows datetime_now)) ;;
  __create_file index_path content.

End generator.

(** ** The public methods of the generator *)




Section lifecycle.

Context `{!Collaborators} `{!Runtime}.

Variable self : MarkupGenerator.



(** [create_output_directory] *)
Definition create_output_directory : M unit :=
  Path_mkdir_parents (output_directory_path self) ;;
  logger_info "Output directory created" ;;
  __copy (revealjs_path self) (output_revealjs_path self).


End lifecycle.

(** ** Notions used to state the properties *)

(** The one pair of names matching [*.md] that [with_suffix] sends to
    the same name: the bare dotfile, which has no suffix to replace, and
    the dotfile with the suffix [.md]. *)
Definition dotfile_pair (nm1 nm2 : string) : Prop :=
  (nm1 = ".md" ∧ nm2 = ".md.md") ∨ (nm1 = ".md.md" ∧ nm2 = ".md").

(** A generator over the Markdown root [/docs] and the output directory
    [/site], for running the model. *)
Definition sample_generator (c : Config) : MarkupGenerator :=
  mkGenerator c (mkPath "/" ["docs"]) (mkPath "/" ["site"])
    (mkPath "/" ["app"; "assets"]) (mkPath "/" ["app"; "assets"; "reveal.js-master"])
    (mkPath "/" ["site"; "assets"]) (mkPath "/" ["site"; "assets"; "reveal-js"]).

(** The index entries of the files [md_files], processed one after the
    other from the world [w]: one entry per file, in order.  The title of
    an entry is the [title] field of the front matter that the file holds
    in the world in which the loop reaches it, or the stem of the path
    when the front matter has no such field; its location is the output
    path of the file relative to the output directory; the next file is
    reached in the world that processing this one leaves. *)
Fixpoint index_entries `{!Collaborators} (self : MarkupGenerator)
    (md_files : list PurePath) (w : world) (entries : list slideshow_entry) : Prop :=
  match md_files, entries with
  | [], [] => True
  | md_file :: md_files, entry :: entries =>
      ∃ content metadata markdown out w1,
        os.read_file (fs w) (os.path_key (cwd w) md_file) = Ok content
        ∧ frontmatter_parse content = Ok (metadata, markdown)
        ∧ __process_markdown_file self md_file w = (Ok (metadata, out), w1)
        ∧ title entry = match metadata !! "title" with
                        | Some v => v
                        | None => PyStr (pathlib.stem md_file)
                        end
        ∧ pathlib.relative_to out (output_directory_path self) false = Ok (location entry)
        ∧ index_entries self md_files w1 entries
  | _, _ => False
  end.

(** The local theme of the slides as it resolves in the world [w], when
    the configuration names one. *)
Definition slides_theme_path (self : MarkupGenerator) (w : world) : option PurePath :=
  match Config_get (config self) ["slides"; "theme"] with
  | PyStr theme =>
      match (Path_resolve (pathlib.Path theme) true w).1 with
      | Ok theme_path => Some theme_path
      | Err _ => None
      end
  | _ => None
  end.

(** [p.parents] as keys: the proper prefixes of a key, the root first. *)
Definition parents (k : list string) : list (list string) :=
  (λ n, take n k) <$> seq 0 (length k).

Definition is_file (fs : filesystem) (k : list string) : bool :=
  match os.stat fs k with Some (File _) => true | _ => false end.

(** No entry above [k] is a regular file: the directories down to [k]
    exist or can be created. *)
Definition no_file_above (fs : filesystem) (k : list string) : bool :=
  forallb (λ p, negb (is_file fs p)) (parents k).

(** Every entry above [k] is a directory. *)
Definition dirs_above (fs : filesystem) (k : list string) : bool :=
  forallb (os.is_dir fs) (parents k).

(** A resolved absolute path: anchored at a root, no double-dot segment. *)
Definition resolved (p : PurePath) : Prop :=
  pathlib.is_absolute p = true ∧ ".." ∉ tail p.

(** Every directory on the way down to [k], and [k] itself, exists. *)
Definition chain (fs : filesystem) (k : list string) : Prop :=
  (".." ∉ k) ∧ (∀ p, p `prefix_of` k → os.exists_ fs p = true).

(** The warning of [__copy_to_output_relative_to_md_root]. *)
Definition outside_root_warning (image : PurePath) : level * string :=
  (WARNING, quoted (pathlib.str image)
            +:+ " is outside the markdown root directory, skipped!" +:+ dq).

(** The configuration keys whose value the code tests with [if value:]. *)
Definition truthiness_tested_keys : list (list string) :=
  [["slides"; "theme"]; ["index"; "theme"]]
  ++ ((λ option, ["slides"; option]) <$> markdown_option_names).

(** The configuration keys whose value is handed on as it is. *)
Definition plainly_read_keys : list (list string) :=
  [["reveal.js"]; ["slides"; "template"]; ["index"; "template"]; ["index"; "title"]].

(** [c1] is [c2] with the empty string put for some of the absent values
    of the tested keys: on the keys the generator reads the two agree,
    but for tested keys where [c1] has the empty string and [c2] has
    nothing. *)
Definition blank_for_absent (c1 c2 : Config) : Prop :=
  Forall (λ keys, Config_get c1 keys = Config_get c2 keys) plainly_read_keys
  ∧ Forall (λ keys, Config_get c1 keys = Config_get c2 keys
                    ∨ (Config_get c1 keys = PyStr "" ∧ Config_get c2 keys = PyNone))
      truthiness_tested_keys.

(** The generator [self] with another configuration. *)
Definition with_config (c : Config) (self : MarkupGenerator) : MarkupGenerator :=
  mkGenerator c (md_root_path self) (output_directory_path self) (assets_path self)
    (revealjs_path self) (output_assets_path self) (output_revealjs_path self).

(** A small site for running the model: the Markdown root [/docs] holds
    [slides/a.md] (front matter with a title, one image below the root)
    and [slides/sub/b.md] (no front matter, one image outside the root);
    [slides/c.md], which the sample directory listing leaves out, has one
    image that exists and one that does not; the process runs in [/app]. *)
Definition sample_fs : filesystem :=
  list_to_map [
    (["docs"], Dir);
    (["docs"; "slides"], Dir);
    (["docs"; "slides"; "a.md"], File "title: Intro;./img/cat.png");
    (["docs"; "slides"; "img"], Dir);
    (["docs"; "slides"; "img"; "cat.png"], File "meow");
    (["docs"; "slides"; "sub"], Dir);
    (["docs"; "slides"; "sub"; "b.md"], File "/etc/logo.png");
    (["docs"; "slides"; "c.md"], File "./img/cat.png;./img/dog.png");
    (["etc"], Dir);
    (["etc"; "logo.png"], File "logo");
    (["app"], Dir);
    (["app"; "themes"], Dir);
    (["app"; "themes"; "dark.css"], File "body { color: white }");
    (["app"; "vendor"], Dir);
    (["app"; "vendor"; "dark.css"], File "body { color: grey }")
  ].

Definition sample_world : world := mkWorld sample_fs (mkPath "/" ["app"]) [].

(** Stand-ins for the collaborators: the front matter is an optional
    first field [title: Intro;], every further field between semicolons
    is an image location, a template is its name and renders to the name
    and the Markdown body, directories are listed in a fixed order, no
    bracketed or non-ASCII network location passes the address checks. *)
Definition sample_frontmatter_parse (content : string)
    : result (gmap string pyval * string) :=
  if pystr.startswith content "title: Intro;"
  then Ok ({["title" := PyStr "Intro"]}, pystr.slice_from 13 content)
  else Ok (∅, content).

Definition sample_locations (markdown : string) : list string :=
  List.filter (λ s, negb (String.eqb s "")) (pystr.split ";" markdown).

Definition sample_get_template (w : world) (name : pyval) : result string :=
  match name with
  | PyStr s => Ok s
  | _ => Err TemplateNotFound
  end.

Definition sample_glob_md (fs : filesystem) (root : PurePath) : list PurePath :=
  List.filter (λ p, os.exists_ fs (tail p))
    [pathlib.joinpath root (pathlib.Path "slides/a.md");
     pathlib.joinpath root (pathlib.Path "slides/sub/b.md")].

Definition sample_collaborators : Collaborators := {|
  frontmatter_parse := sample_frontmatter_parse;
  MD_IMAGE_REGEX := sample_locations;
  HTML_IMAGE_REGEX := λ _, [];
  HTML_BACKGROUND_IMAGE_REGEX := λ _, [];
  template := string;
  get_template := sample_get_template;
  render_slideshow := λ t ctx, Ok (t +:+ ": " +:+ sc_markdown ctx);
  datetime := unit;
  datetime_now := tt;
  render_index := λ t ctx, Ok t;
  glob_md := sample_glob_md;
  shutil_copytree := λ fs _ _, (Ok tt, fs);
  urlsplit_address_check := λ _, false
|}.

(** A configuration with empty strings for both themes and for
    [charset], and the same configuration with those keys unset. *)
Definition sample_config_blank : Config :=
  mkConfig (PyDict [
    ("slides", PyDict [("template", PyStr "slideshow.html.jinja");
                       ("theme", PyStr "");
                       ("separator", PyStr "^---$");
                       ("charset", PyStr "")]);
    ("index", PyDict [("template", PyStr "index.html.jinja");
                      ("title", PyStr "Slides");
                      ("theme", PyStr "")])
  ]).

Definition sample_config_absent : Config :=
  mkConfig (PyDict [
    ("slides", PyDict [("template", PyStr "slideshow.html.jinja");
                       ("separator", PyStr "^---$")]);
    ("index", PyDict [("template", PyStr "index.html.jinja");
                      ("title", PyStr "Slides")])
  ]).

Definition sample_config : Config :=
  mkConfig (PyDict [
    ("slides", PyDict [("template", PyStr "slideshow.html.jinja");
                       ("theme", PyStr "themes/dark.css");
                       ("separator", PyStr "^---$");
                       ("charset", PyStr "")]);
    ("index", PyDict [("template", PyStr "index.html.jinja");
                      ("title", PyStr "Slides");
                      ("theme", PyStr "https://example.com/t.css")])
  ]).

(** The sample site with the bundled assets in the working directory. *)
Definition sample_fs_assets : filesystem :=
  <[["app"; "assets"; "reveal.js-master"] := Dir]> (<[["app"; "assets"] := Dir]> sample_fs).

Definition sample_world_assets : world :=
  mkWorld sample_fs_assets (mkPath "/" ["app"]) [].


(** The sample generator with another output directory. *)
Definition sample_generator_at (out : list string) : MarkupGenerator :=
  mkGenerator sample_config (mkPath "/" ["docs"]) (mkPath "/" out)
    (mkPath "/" ["app"; "assets"]) (mkPath "/" ["app"; "assets"; "reveal.js-master"])
    (mkPath "/" (out ++ ["assets"])) (mkPath "/" (out ++ ["assets"; "reveal-js"])).

(** * Properties *)

(** ** Running the model on small inputs *)

Example relative_to_sibling :
  pathlib.relative_to (mkPath "/" ["out"; "assets"; "reveal-js"])
                      (mkPath "/" ["out"; "slides"; "sub"]) true
  = Ok (mkPath "" [".."; ".."; "assets"; "reveal-js"]).
Proof. reflexivity. Qed.

Example relative_to_refuses_dotdot :
  pathlib.relative_to (mkPath "/" ["out"; "assets"; "reveal-js"])
                      (mkPath "/" ["out"; ".."; "b"]) true
  = Err ValueError.
Proof. reflexivity. Qed.

Example with_suffix_examples :
  pathlib.with_suffix (mkPath "/" ["out"; ".md"]) ".html" = Ok (mkPath "/" ["out"; ".md.html"])
  ∧ pathlib.with_suffix (mkPath "/" ["out"; ".md.md"]) ".html" = Ok (mkPath "/" ["out"; ".md.html"])
  ∧ pathlib.with_suffix (mkPath "/" ["out"; "a.b.md"]) ".html" = Ok (mkPath "/" ["out"; "a.b.html"])
  ∧ pathlib.with_suffix (mkPath "/" []) ".html" = Err ValueError.
Proof. repeat split; reflexivity. Qed.

Example Path_examples :
  pathlib.Path "/srv/docs/./img//cat.png" = mkPath "/" ["srv"; "docs"; "img"; "cat.png"]
  ∧ pathlib.Path "../img/cat.png" = mkPath "" [".."; "img"; "cat.png"]
  ∧ pathlib.Path "assets" = mkPath "" ["assets"].
Proof. repeat split; reflexivity. Qed.

Example urlparse_scheme_examples :
  urllib.urlparse_scheme "https://example.com/t.css" = "https"
  ∧ urllib.urlparse_scheme "themes/x.css" = ""
  ∧ urllib.urlparse_scheme "C:/x.css" = "c"
  ∧ urllib.urlparse_scheme "1a:b" = ""
  ∧ urllib.urlparse_scheme ":x" = "".
Proof. repeat split; reflexivity. Qed.

Example urlparse_examples (address_check : string → bool) :
  urllib.urlparse address_check "https://example.com/t.css" = Ok "https"
  ∧ urllib.urlparse address_check "themes/[x.css" = Ok ""
  ∧ urllib.urlparse address_check "http:[" = Ok "http"
  ∧ urllib.urlparse address_check "https://[bad" = Err ValueError
  ∧ urllib.urlparse address_check "//[x.css" = Err ValueError
  ∧ urllib.urlparse address_check "C://[x" = Err ValueError
  ∧ urllib.urlparse address_check "http://a]b/" = Err ValueError
  ∧ urllib.urlparse address_check "http://[::1]/x"
    = if address_check "[::1]" then Ok "http" else Err ValueError.
Proof. repeat split; try reflexivity. cbv. by destruct (address_check _). Qed.

Example resolve_examples :
  (Path_resolve (pathlib.Path "//docs/slides/img/cat.png") true sample_world).1
  = Ok (mkPath "/" ["docs"; "slides"; "img"; "cat.png"])
  ∧ (Path_resolve (pathlib.Path "//docs/none") false sample_world).1
    = Ok (mkPath "/" ["docs"; "none"])
  ∧ (Path_resolve (pathlib.Path "themes/../vendor/dark.css") true sample_world).1
    = Ok (mkPath "/" ["app"; "vendor"; "dark.css"])
  ∧ (Path_resolve (pathlib.Path "/docs/none/x.png") true sample_world).1
    = Err FileNotFoundError
  ∧ (Path_resolve (pathlib.Path "/etc/logo.png/x.png") true sample_world).1
    = Err NotADirectoryError
  ∧ (Path_resolve (pathlib.Path "/etc/logo.png/x/../../none") true sample_world).1
    = Err NotADirectoryError
  ∧ (Path_resolve (pathlib.Path "/etc/logo.png/../logo.png") true sample_world).1
    = Ok (mkPath "/" ["etc"; "logo.png"]).
Proof. repeat split; by vm_compute. Qed.

(** ** Lists of segments *)

Lemma strip_common_spec (a b : list string) :
  ∃ c, a = c ++ (pathlib.strip_common a b).1 ∧ b = c ++ (pathlib.strip_common a b).2.
Proof.
  revert b. induction a as [|x a IH]; intros b.
  - exists []. by destruct b.
  - destruct b as [|y b]; [by exists []|]. simpl.
    destruct (decide (x = y)) as [->|Hne]; [|by exists []].
    destruct (IH b) as (c & Ha & Hb). exists (y :: c). simpl. split; by f_equal.
Qed.

Lemma strip_common_app (c r : list string) :
  pathlib.strip_common (c ++ r) c = (r, []).
Proof.
  induction c as [|x c IH]; simpl; [by destruct r|].
  by rewrite decide_True.
Qed.

Lemma follow_plain (t dir : list string) :
  ".." ∉ t → foldl follow_segment dir t = dir ++ t.
Proof.
  revert dir. induction t as [|x t IH]; intros dir Ht; simpl.
  - by rewrite app_nil_r.
  - apply not_elem_of_cons in Ht as [Hx Ht].
    unfold follow_segment at 2. rewrite decide_False by done.
    rewrite IH by done. by rewrite <- app_assoc.
Qed.

Lemma follow_up (r c t : list string) :
  foldl follow_segment (c ++ r) (replicate (length r) ".." ++ t)
  = foldl follow_segment c t.
Proof.
  induction r as [|x r IH] using rev_ind; simpl.
  - by rewrite app_nil_r.
  - rewrite length_app, Nat.add_comm. simpl.
    unfold follow_segment at 2. rewrite decide_True by done.
    rewrite app_assoc, removelast_last. apply IH.
Qed.

Lemma elem_of_removelast (x : string) (l : list string) :
  x ∈ removelast l → x ∈ l.
Proof.
  induction l as [|y l IH]; simpl; [done|].
  destruct l; [by intros ?%elem_of_nil|].
  intros [->|H]%elem_of_cons; [left|right; by apply IH].
Qed.

(** Whatever [relative_to] returns with [walk_up], following it from the
    base leads to the target, as long as the target itself has no
    double-dot segment. *)
Lemma relative_to_walk_up_sound (target base rel : PurePath) :
  ".." ∉ tail target →
  pathlib.relative_to target base true = Ok rel →
  anchor rel = "" ∧ follow base rel = target.
Proof.
  intros Ht. unfold pathlib.relative_to.
  destruct (decide (anchor target = anchor base)) as [Ha|]; [|done].
  destruct (strip_common_spec (tail target) (tail base)) as (c & Hc1 & Hc2).
  destruct (pathlib.strip_common (tail target) (tail base)) as [rt rb]; simpl in *.
  assert (".." ∉ rt) as Hrt.
  { intros H. apply Ht. rewrite Hc1. apply elem_of_app. by right. }
  assert (mkPath (anchor base) (c ++ rt) = target) as Htarget.
  { destruct target; simpl in *. by subst. }
  destruct rb as [|y rb].
  - intros [= <-]. split; [done|]. unfold follow; simpl.
    rewrite Hc2, app_nil_r, follow_plain by done. done.
  - case_bool_decide; [done|]. intros [= <-]. split; [done|].
    unfold follow. cbn [tail anchor]. rewrite Hc2.
    change (".." :: replicate (length rb) ".." ++ rt)
      with (replicate (length (y :: rb)) ".." ++ rt).
    rewrite follow_up, follow_plain by done. done.
Qed.

(** It does return when both paths are absolute paths of the same root
    without double-dot segments, which is what [Path.resolve] gives. *)
Lemma relative_to_walk_up_total (target base : PurePath) :
  anchor target = anchor base →
  ".." ∉ tail base →
  ∃ rel, pathlib.relative_to target base true = Ok rel.
Proof.
  intros Ha Hb. unfold pathlib.relative_to. rewrite decide_True by done.
  destruct (strip_common_spec (tail target) (tail base)) as (c & Hc1 & Hc2).
  destruct (pathlib.strip_common (tail target) (tail base)) as [rt rb]; simpl in *.
  destruct rb as [|y rb]; [by eexists|].
  rewrite bool_decide_false; [by eexists|].
  intros H. apply Hb. rewrite Hc2. apply elem_of_app. by right.
Qed.

(** The paths [Path.resolve] returns are absolute below the root it
    started from and have no double-dot segment left. *)
Lemma realpath_no_dotdot fs strict (segs above k : list string) :
  ".." ∉ above →
  os.realpath fs strict above segs = Ok k →
  ".." ∉ k.
Proof.
  revert above. induction segs as [|seg rest IH]; intros above Ha; simpl.
  - by intros [= <-].
  - destruct (decide (seg = "..")) as [->|Hseg].
    + apply IH. intros H. by apply Ha, elem_of_removelast.
    + destruct (strict && negb (os.exists_ fs (above ++ [seg]))); [done|].
      apply IH. rewrite elem_of_app, list_elem_of_singleton. intros [?|?]; by subst.
Qed.

(** ** Names, stems and suffixes *)

Section names.

#[local] Arguments String.append : simpl nomatch.

Lemma substring_all (s : string) : String.substring 0 (String.length s) s = s.
Proof. induction s as [|c s IH]; simpl; [done|]. by rewrite IH. Qed.

Lemma length_append (s t : string) :
  String.length (s +:+ t) = String.length s + String.length t.
Proof. induction s as [|c s IH]; simpl; [done|]. by rewrite IH. Qed.

Lemma append_empty_r (s : string) : s +:+ EmptyString = s.
Proof. induction s as [|c s IH]; simpl; [done|]. by rewrite IH. Qed.

Lemma slice_split (s : string) (k : nat) :
  k ≤ String.length s → pystr.slice_to k s +:+ pystr.slice_from k s = s.
Proof.
  unfold pystr.slice_to, pystr.slice_from.
  revert k. induction s as [|c s IH]; intros k Hk; simpl in *.
  - by assert (k = 0) as -> by lia.
  - destruct k as [|k]; simpl.
    + by rewrite substring_all.
    + f_equal. apply IH. lia.
Qed.

Lemma length_slice_to (s : string) (k : nat) :
  k ≤ String.length s → String.length (pystr.slice_to k s) = k.
Proof.
  unfold pystr.slice_to. revert k.
  induction s as [|c s IH]; intros [|k] Hk; simpl in *; try done; try lia.
  rewrite IH; lia.
Qed.

Lemma slice_to_append (s t : string) : pystr.slice_to (String.length s) (s +:+ t) = s.
Proof.
  unfold pystr.slice_to. induction s as [|c s IH]; simpl.
  - by destruct t.
  - by rewrite IH.
Qed.

Lemma slice_from_append (s t : string) : pystr.slice_from (String.length s) (s +:+ t) = t.
Proof.
  unfold pystr.slice_from. induction s as [|c s IH]; simpl.
  - rewrite Nat.sub_0_r. apply substring_all.
  - apply IH.
Qed.

Lemma append_inj_r (s1 s2 t : string) : s1 +:+ t = s2 +:+ t → s1 = s2.
Proof.
  revert s2. induction s1 as [|c s1 IH]; intros [|d s2] H; simpl in *.
  - done.
  - apply (f_equal String.length) in H. simpl in H. rewrite length_append in H. lia.
  - apply (f_equal String.length) in H. simpl in H. rewrite length_append in H. lia.
  - injection H as -> H. f_equal. by apply IH.
Qed.

Lemma rfind_lt (c : ascii) (s : string) (i : nat) :
  pystr.rfind c s = Some i → i < String.length s.
Proof.
  revert i. induction s as [|a s IH]; intros i; simpl; [done|].
  destruct (pystr.rfind c s) as [j|].
  - intros [= <-]. specialize (IH j eq_refl). lia.
  - destruct (Ascii.eqb a c); [|done]. intros [= <-]. lia.
Qed.

Lemma rfind_append (c : ascii) (s t : string) :
  pystr.rfind c (s +:+ t)
  = match pystr.rfind c t with
    | Some i => Some (String.length s + i)
    | None => pystr.rfind c s
    end.
Proof.
  induction s as [|a s IH]; simpl.
  - by destruct (pystr.rfind c t).
  - rewrite IH. by destruct (pystr.rfind c t).
Qed.

Lemma suffix_index_Some (nm : string) (i : nat) :
  pathlib.suffix_index nm = Some i → 0 < i ∧ i < String.length nm - 1.
Proof.
  unfold pathlib.suffix_index. destruct (pystr.rfind "." nm) as [j|]; [|done].
  destruct (0 <? j) eqn:H1; [|done]. destruct (j <? String.length nm - 1) eqn:H2; [|done].
  intros [= <-]. apply Nat.ltb_lt in H1, H2. done.
Qed.

(** A name is its stem followed by its suffix. *)
Lemma name_stem_suffix (nm : string) :
  nm = pathlib.stem_of_name nm +:+ pathlib.suffix_of_name nm.
Proof.
  unfold pathlib.stem_of_name, pathlib.suffix_of_name.
  destruct (pathlib.suffix_index nm) as [i|] eqn:Hi.
  - apply suffix_index_Some in Hi. symmetry. apply slice_split. lia.
  - by rewrite append_empty_r.
Qed.

(** The name [with_suffix] builds is the stem followed by the new
    suffix. *)
Lemma with_suffix_Ok (p o : PurePath) (sfx : string) :
  pathlib.with_suffix p sfx = Ok o →
  tail p ≠ [] ∧ o = pathlib.with_name p (pathlib.stem p +:+ sfx).
Proof.
  unfold pathlib.with_suffix.
  destruct (String.eqb (pathlib.name p) "") eqn:Hnm; [done|].
  apply String.eqb_neq in Hnm. intros [= <-]. split.
  { intros Ht. apply Hnm. unfold pathlib.name. by rewrite Ht. }
  f_equal. unfold pathlib.suffix, pathlib.stem, pathlib.suffix_of_name, pathlib.stem_of_name.
  destruct (pathlib.suffix_index (pathlib.name p)) as [i|] eqn:Hi; [|done].
  apply suffix_index_Some in Hi as Hi'.
  assert (String.length (pystr.slice_from i (pathlib.name p))
          = String.length (pathlib.name p) - i) as Hlen.
  { pose proof (slice_split (pathlib.name p) i ltac:(lia)) as Hs.
    apply (f_equal String.length) in Hs. rewrite length_append in Hs.
    rewrite length_slice_to in Hs by lia. lia. }
  destruct (String.eqb (pystr.slice_from i (pathlib.name p)) "") eqn:He.
  { apply String.eqb_eq in He. rewrite He in Hlen. simpl in Hlen. lia. }
  rewrite Hlen. by replace (String.length (pathlib.name p) - (String.length (pathlib.name p) - i)) with i by lia.
Qed.

(** A name that matches [*.md] either is the bare dotfile name, which
    pathlib gives no suffix, or has the suffix [.md]. *)
Lemma fnmatch_md_cases (nm : string) :
  pathlib.fnmatch_md nm = true →
  nm = ".md" ∨ pathlib.suffix_of_name nm = ".md".
Proof.
  unfold pathlib.fnmatch_md, pystr.endswith.
  intros [Hlen Heq%String.eqb_eq]%andb_true_iff. apply Nat.leb_le in Hlen.
  pose proof (slice_split nm (String.length nm - String.length ".md") ltac:(lia)) as Hs.
  rewrite Heq in Hs.
  set (s := pystr.slice_to (String.length nm - String.length ".md") nm) in *.
  destruct s as [|c s'] eqn:Es; [left; by rewrite <- Hs|]. right.
  unfold pathlib.suffix_of_name, pathlib.suffix_index.
  rewrite <- Hs, rfind_append. change (pystr.rfind "." ".md") with (Some 0).
  cbv beta iota. rewrite Nat.add_0_r, length_append.
  replace (0 <? String.length (String c s')) with true
    by (symmetry; apply Nat.ltb_lt; simpl; lia).
  replace (String.length (String c s') <? String.length (String c s') + String.length ".md" - 1)
    with true by (symmetry; apply Nat.ltb_lt; simpl; lia).
  cbn [andb]. apply slice_from_append.
Qed.

(** Replacing the suffix [.md] of a name is injective, and collides with
    the suffix-free dotfile only on one name. *)
Lemma html_name_inj (nm1 nm2 : string) :
  pathlib.fnmatch_md nm1 = true →
  pathlib.fnmatch_md nm2 = true →
  pathlib.stem_of_name nm1 +:+ ".html" = pathlib.stem_of_name nm2 +:+ ".html" →
  nm1 = nm2 ∨ (nm1 = ".md" ∧ nm2 = ".md.md") ∨ (nm1 = ".md.md" ∧ nm2 = ".md").
Proof.
  intros H1 H2 Heq%append_inj_r.
  pose proof (name_stem_suffix nm1) as E1. pose proof (name_stem_suffix nm2) as E2.
  destruct (fnmatch_md_cases nm1 H1) as [->|S1], (fnmatch_md_cases nm2 H2) as [->|S2].
  - by left.
  - right; left. split; [done|]. rewrite E2, <- Heq, S2. reflexivity.
  - right; right. split; [|done]. rewrite E1, Heq, S1. reflexivity.
  - left. rewrite E1, E2. congruence.
Qed.

End names.

(** ** The output path of a Markdown file *)

Lemma relative_to_below_inv (p root rel : PurePath) :
  pathlib.relative_to p root false = Ok rel →
  anchor p = anchor root ∧ tail p = tail root ++ tail rel ∧ anchor rel = "".
Proof.
  unfold pathlib.relative_to.
  destruct (decide (anchor p = anchor root)) as [Ha|]; [|done].
  destruct (strip_common_spec (tail p) (tail root)) as (c & Hc1 & Hc2).
  destruct (pathlib.strip_common (tail p) (tail root)) as [rp rr]; simpl in *.
  destruct rr; [|done]. intros [= <-]. rewrite app_nil_r in Hc2. by subst c.
Qed.

Lemma relative_to_below (root : PurePath) (rest : list string) :
  pathlib.relative_to (mkPath (anchor root) (tail root ++ rest)) root false
  = Ok (mkPath "" rest).
Proof.
  unfold pathlib.relative_to. cbn [anchor tail].
  rewrite decide_True by done. by rewrite strip_common_app.
Qed.

Lemma output_markup_path_of_inv (self : MarkupGenerator) (md_file o : PurePath) :
  output_markup_path_of self md_file = Ok o →
  ∃ rest,
    md_file = mkPath (anchor (md_root_path self)) (tail (md_root_path self) ++ rest)
    ∧ tail (output_directory_path self) ++ rest ≠ []
    ∧ o = mkPath (anchor (output_directory_path self))
            (removelast (tail (output_directory_path self) ++ rest)
             ++ [pathlib.stem_of_name
                   (List.last (tail (output_directory_path self) ++ rest) "") +:+ ".html"]).
Proof.
  unfold output_markup_path_of.
  destruct (pathlib.relative_to md_file (md_root_path self) false) as [rel|] eqn:Hrel; [|done].
  apply relative_to_below_inv in Hrel as (Ha & Ht & Hr).
  intros (Hne & ->)%with_suffix_Ok. exists (tail rel).
  unfold pathlib.joinpath, pathlib.is_absolute in *. rewrite Hr in *. simpl in *.
  split; [|done]. destruct md_file; simpl in *. by subst.
Qed.

Lemma length_removelast_nonempty (l : list string) :
  l ≠ [] → length l = S (length (removelast l)).
Proof.
  intros Hl. rewrite (app_removelast_last "" Hl) at 1.
  rewrite length_app. simpl. lia.
Qed.

(** C3, as the code has it: two distinct Markdown files (names matching
    [*.md]) below the source root get distinct output paths, unless one is
    named [.md] and the other [.md.md]; pathlib gives the bare dotfile no
    suffix, so [.html] is appended to it whole. *)
Theorem output_markup_path_injective
    (self : MarkupGenerator) (md_file1 md_file2 out1 out2 : PurePath) :
  pathlib.fnmatch_md (pathlib.name md_file1) = true →
  pathlib.fnmatch_md (pathlib.name md_file2) = true →
  output_markup_path_of self md_file1 = Ok out1 →
  output_markup_path_of self md_file2 = Ok out2 →
  md_file1 ≠ md_file2 →
  ¬ dotfile_pair (pathlib.name md_file1) (pathlib.name md_file2) →
  out1 ≠ out2.
Proof.
  intros M1 M2 (r1 & -> & N1 & ->)%output_markup_path_of_inv
    (r2 & -> & N2 & ->)%output_markup_path_of_inv Hne Hpair [= Heq].
  apply app_inj_tail in Heq as [Hinit Hname].
  unfold pathlib.name in *. cbn [tail] in *.
  set (out := tail (output_directory_path self)) in *.
  set (root := tail (md_root_path self)) in *.
  destruct r1 as [|x1 r1 _] using rev_ind; destruct r2 as [|x2 r2 _] using rev_ind.
  - done.
  - rewrite app_nil_r in *. rewrite app_assoc, removelast_last in Hinit.
    apply length_removelast_nonempty in N1. rewrite Hinit, length_app in N1. lia.
  - rewrite app_nil_r in *. rewrite app_assoc, removelast_last in Hinit.
    apply length_removelast_nonempty in N2. rewrite <- Hinit, length_app in N2. lia.
  - rewrite !app_assoc, !removelast_last in Hinit. apply app_inv_head in Hinit as ->.
    rewrite !app_assoc, !last_last in *.
    destruct (html_name_inj x1 x2 M1 M2 Hname) as [->|Hp]; [done|].
    by apply Hpair.
Qed.

Lemma output_markup_path_injective_witness :
  mkPath "/" ["site"; "slides"; "a.html"] ≠ mkPath "/" ["site"; "slides"; "sub"; "b.html"].
Proof.
  apply (output_markup_path_injective (sample_generator (mkConfig PyNone))
           (mkPath "/" ["docs"; "slides"; "a.md"])
           (mkPath "/" ["docs"; "slides"; "sub"; "b.md"])).
  - reflexivity.
  - reflexivity.
  - reflexivity.
  - reflexivity.
  - discriminate.
  - intros [[H _]|[H _]]; discriminate H.
Defined.

(** C3, as the claim states it, fails: the files [.md] and [.md.md] of
    one directory both match [*.md], are distinct, and both get the output
    path [.md.html]. *)
Lemma output_markup_path_collision :
  ¬ (∀ (self : MarkupGenerator) (md_file1 md_file2 out1 out2 : PurePath),
       pathlib.fnmatch_md (pathlib.name md_file1) = true →
       pathlib.fnmatch_md (pathlib.name md_file2) = true →
       output_markup_path_of self md_file1 = Ok out1 →
       output_markup_path_of self md_file2 = Ok out2 →
       md_file1 ≠ md_file2 →
       out1 ≠ out2).
Proof.
  intros H.
  apply (H (sample_generator (mkConfig PyNone))
           (mkPath "/" ["docs"; "notes"; ".md"]) (mkPath "/" ["docs"; "notes"; ".md.md"])
           (mkPath "/" ["site"; "notes"; ".md.html"]) (mkPath "/" ["site"; "notes"; ".md.html"]));
    (reflexivity || discriminate).
Qed.

(** ** The monad *)

Lemma bind_Ok {A B} (c : M A) (k : A → M B) (w w1 : world) (a : A) :
  c w = (Ok a, w1) → bind c k w = k a w1.
Proof. unfold bind. by intros ->. Qed.

Lemma bind_Err {A B} (c : M A) (k : A → M B) (w w1 : world) (e : exn) :
  c w = (Err e, w1) → bind c k w = (Err e, w1).
Proof. unfold bind. by intros ->. Qed.

Lemma bind_Ok_inv {A B} (c : M A) (k : A → M B) (w w' : world) (b : B) :
  bind c k w = (Ok b, w') → ∃ a w1, c w = (Ok a, w1) ∧ k a w1 = (Ok b, w').
Proof.
  unfold bind. destruct (c w) as [[a|e] w1]; [|done]. intros Hk. by exists a, w1.
Qed.

(** ** Markdown rendering options *)

Lemma collect_options_lookup (get : string → pyval) (names : list string)
    (acc : gmap string pyval) (k : string) :
  foldl (λ m o, if truthy (get o) then <[o := get o]> m else m) acc names !! k
  = if bool_decide (k ∈ names) && truthy (get k) then Some (get k) else acc !! k.
Proof.
  revert acc. induction names as [|o names IH]; intros acc; simpl; [done|].
  rewrite IH. destruct (decide (k ∈ names)) as [Hin|Hin].
  - rewrite !bool_decide_true by (try right; done). simpl.
    destruct (truthy (get k)) eqn:Hk; [done|].
    destruct (truthy (get o)) eqn:Ho; [|done].
    rewrite lookup_insert_ne; [done|]. intros ->. congruence.
  - rewrite (bool_decide_false (k ∈ names)) by done. simpl.
    destruct (decide (k = o)) as [->|Hne].
    + rewrite bool_decide_true by left. simpl.
      destruct (truthy (get o)); [|done]. by rewrite lookup_insert_eq.
    + rewrite bool_decide_false by (intros [?|?]%elem_of_cons; done). simpl.
      destruct (truthy (get o)); [|done]. by rewrite lookup_insert_ne.
Qed.

Lemma markdown_data_options_lookup (self : MarkupGenerator) (option : string) :
  collect_markdown_data_options self !! option
  = if bool_decide (option ∈ markdown_option_names)
       && truthy (Config_get (config self) ["slides"; option])
    then Some (Config_get (config self) ["slides"; option]) else None.
Proof.
  unfold collect_markdown_data_options.
  rewrite (collect_options_lookup (λ o, Config_get (config self) ["slides"; o])).
  by rewrite lookup_empty.
Qed.


Example markdown_data_options_sample :
  collect_markdown_data_options (sample_generator sample_config)
  = {["separator" := PyStr "^---$"]}.
Proof. by vm_compute. Qed.

(** ** Themes *)

Section properties.

Context `{!Collaborators}.

(** C4: when the configured theme is an absolute URL ([urlparse] returns
    and the URL scheme is not empty, which is when [__is_absolute_url]
    returns [True]), [__copy_theme] returns the URL string itself as the
    theme reference and leaves the file system as it was: nothing is
    resolved and nothing is copied, the only effect is one log record. *)
Theorem copy_theme_absolute_url
    (self : MarkupGenerator) (file_using_theme_path : PurePath) (theme : string) (w : world) :
  __is_absolute_url theme = Ok true →
  ∃ w', __copy_theme self file_using_theme_path (PyStr theme) w = (Ok (ThemeUrl theme), w')
        ∧ fs w' = fs w
        ∧ log w' = log w ++ [(INFO, "Using theme " +:+ quoted theme
                                     +:+ " is an absolute URL, no copy necessary")].
Proof.
  intros Hurl. unfold __copy_theme. rewrite Hurl.
  erewrite bind_Ok by reflexivity. eexists. by split.
Qed.

End properties.

Lemma copy_theme_absolute_url_witness :
  ∃ w', @__copy_theme sample_collaborators (sample_generator sample_config)
          (mkPath "/" ["site"; "slides"; "a.html"]) (PyStr "https://example.com/t.css")
          sample_world = (Ok (ThemeUrl "https://example.com/t.css"), w')
        ∧ fs w' = fs sample_world
        ∧ log w' = log sample_world
                   ++ [(INFO, "Using theme " +:+ quoted "https://example.com/t.css"
                               +:+ " is an absolute URL, no copy necessary")].
Proof.
  apply (@copy_theme_absolute_url sample_collaborators). reflexivity.
Defined.

(** ** Results and stems *)

Lemma lift_Ok_inv {A} (r : result A) (w w' : world) (a : A) :
  lift r w = (Ok a, w') → r = Ok a ∧ w' = w.
Proof. destruct r; simpl; unfold ret, raise; by intros [= -> ->]. Qed.

(** The stem of a name with the suffix [.md] is the name without that
    suffix. *)
Lemma stem_strips_md (nm : string) :
  pathlib.suffix_of_name nm = ".md" → nm = pathlib.stem_of_name nm +:+ ".md".
Proof. intros H. rewrite <- H. apply name_stem_suffix. Qed.

(** ** The file system *)

Lemma elem_of_parents (p k : list string) :
  p ∈ parents k ↔ p `prefix_of` k ∧ p ≠ k.
Proof.
  unfold parents. rewrite list_elem_of_fmap. split.
  - intros (n & -> & Hn%elem_of_seq). split.
    + apply prefix_take.
    + intros E. apply (f_equal length) in E. rewrite length_take in E. lia.
  - intros [[r ->] Hne]. exists (length p). split.
    + by rewrite take_app_length.
    + apply elem_of_seq. rewrite length_app. destruct r; [by rewrite app_nil_r in Hne|].
      simpl. lia.
Qed.

Lemma stat_insert (fs : filesystem) (k k' : list string) (n : node) :
  k' ≠ [] →
  os.stat (<[k' := n]> fs) k = if decide (k = k') then Some n else os.stat fs k.
Proof.
  intros Hk'. destruct k as [|x k]; simpl.
  - by rewrite decide_False.
  - rewrite lookup_insert. destruct (decide (k' = x :: k)), (decide (x :: k = k')); congruence.
Qed.

Lemma path_key_resolved (cwd p : PurePath) :
  resolved p → os.path_key cwd p = tail p.
Proof.
  intros [Habs Hdd]. unfold os.path_key. rewrite Habs. by rewrite follow_plain.
Qed.

Lemma resolved_parent (p : PurePath) : resolved p → resolved (pathlib.parent p).
Proof.
  intros [Habs Hdd]. split; [done|]. simpl. intros H. by apply Hdd, elem_of_removelast.
Qed.

(** [makedirs] succeeds when no regular file is in the way; afterwards
    every directory down to the path exists, what existed is kept, and
    nothing outside that chain has changed. *)
Lemma makedirs_Ok (fs : filesystem) (above segs : list string) :
  (∀ p c, p `prefix_of` segs → p ≠ [] → os.stat fs (above ++ p) ≠ Some (File c)) →
  ∃ fs', os.makedirs fs above segs = Ok fs'
    ∧ (∀ p, p `prefix_of` segs → p ≠ [] → os.stat fs' (above ++ p) = Some Dir)
    ∧ (∀ k n, os.stat fs k = Some n → os.stat fs' k = Some n)
    ∧ (∀ k, (∀ p, p `prefix_of` segs → k ≠ above ++ p) → os.stat fs' k = os.stat fs k).
Proof.
  revert fs above. induction segs as [|seg rest IH]; intros fs above Hfree; simpl.
  - exists fs. repeat split; try done. by intros p ->%prefix_nil_inv.
  - assert (Hshift : ∀ fs1,
      (∀ k, k ≠ above ++ [seg] → os.stat fs1 k = os.stat fs k) →
      ∀ p c, p `prefix_of` rest → p ≠ [] →
             os.stat fs1 ((above ++ [seg]) ++ p) ≠ Some (File c)).
    { intros fs1 Hsame p c Hp Hne. rewrite Hsame.
      - rewrite <- app_assoc. apply Hfree; [by apply prefix_cons|done].
      - intros E. apply (f_equal length) in E. rewrite !length_app in E.
        destruct p; [done|]. simpl in E. lia. }
    destruct (os.stat fs (above ++ [seg])) as [[c|]|] eqn:Hhere.
    + exfalso. by apply (Hfree [seg] c); [apply prefix_cons, prefix_nil|..].
    + destruct (IH fs (above ++ [seg]) (Hshift fs (λ _ _, eq_refl)))
        as (fs' & Hrun & Hdirs & Hkeep & Hout).
      exists fs'. split; [done|]. repeat split.
      * intros p [r Hp] Hne. destruct p as [|x p]; [done|]. simplify_eq/=.
        destruct p as [|y p].
        -- by apply Hkeep.
        -- replace (above ++ x :: y :: p) with ((above ++ [x]) ++ y :: p)
             by (by rewrite <- app_assoc).
           apply Hdirs; [by eexists|done].
      * done.
      * intros k Hk. apply Hout. intros p [r ->] ->. apply (Hk (seg :: p)).
        -- by exists r.
        -- by rewrite <- app_assoc.
    + assert (above ++ [seg] ≠ []) as Hnil by (by destruct above).
      destruct (IH (<[above ++ [seg] := Dir]> fs) (above ++ [seg])) as (fs' & Hrun & Hdirs & Hkeep & Hout).
      { apply Hshift. intros k Hk. rewrite stat_insert by done.
        by rewrite decide_False. }
      exists fs'. split; [done|]. repeat split.
      * intros p [r Hp] Hne. destruct p as [|x p]; [done|]. simplify_eq/=.
        destruct p as [|y p].
        -- apply Hkeep. rewrite stat_insert by done. by rewrite decide_True.
        -- replace (above ++ x :: y :: p) with ((above ++ [x]) ++ y :: p)
             by (by rewrite <- app_assoc).
           apply Hdirs; [by eexists|done].
      * intros k n Hk. apply Hkeep. rewrite stat_insert by done.
        rewrite decide_False; [done|]. intros ->. congruence.
      * intros k Hk. rewrite Hout.
        -- rewrite stat_insert by done. rewrite decide_False; [done|].
           apply (Hk [seg]). apply prefix_cons, prefix_nil.
        -- intros p [r ->] ->. apply (Hk (seg :: p)).
           ++ by exists r.
           ++ by rewrite <- app_assoc.
Qed.

(** When the directories are all there, [makedirs] changes nothing. *)
Lemma makedirs_id (fs : filesystem) (above segs : list string) :
  (∀ p, p `prefix_of` segs → p ≠ [] → os.stat fs (above ++ p) = Some Dir) →
  os.makedirs fs above segs = Ok fs.
Proof.
  revert above. induction segs as [|seg rest IH]; intros above Hdirs; simpl; [done|].
  rewrite (Hdirs [seg]); [|apply prefix_cons, prefix_nil|done].
  apply IH. intros p Hp Hne. rewrite <- app_assoc. apply Hdirs; [by apply prefix_cons|done].
Qed.

Lemma parents_prefix_removelast (p k : list string) :
  p `prefix_of` removelast k → p `prefix_of` k ∧ (k ≠ [] → p ≠ k).
Proof.
  destruct (decide (k = [])) as [->|Hk]; [done|].
  pose proof (app_removelast_last "" Hk) as Hd. intros [r Hr]. split.
  - rewrite Hd. apply prefix_app_r. by exists r.
  - intros _ E. apply (f_equal length) in Hd. rewrite Hr, <- E, !length_app in Hd.
    simpl in Hd. lia.
Qed.

Lemma stat_parent_after (fs : filesystem) (k : list string) :
  (∀ p, p `prefix_of` removelast k → p ≠ [] → os.stat fs p = Some Dir) →
  os.stat fs (removelast k) = Some Dir.
Proof.
  intros Hdirs. destruct (removelast k) as [|x r] eqn:E; [done|].
  by apply Hdirs.
Qed.


(** With the directories above in place, making them changes nothing. *)
Lemma mkdir_parents_present (fs : filesystem) (k : list string) :
  dirs_above fs k = true →
  os.mkdir_parents fs (removelast k) = Ok fs ∧ (k ≠ [] → os.stat fs (removelast k) = Some Dir).
Proof.
  intros Hdirs. unfold dirs_above in Hdirs. rewrite forallb_forall in Hdirs.
  assert (∀ p, p `prefix_of` removelast k → p ≠ [] → os.stat fs p = Some Dir) as Hall.
  { intros p [Hp Hne]%parents_prefix_removelast Hp0.
    assert (k ≠ []) as Hk by (intros ->; by apply prefix_nil_inv in Hp).
    specialize (Hdirs p). unfold os.is_dir in Hdirs.
    destruct (os.stat fs p) as [[|]|]; try done;
      discriminate Hdirs; apply list_elem_of_In, elem_of_parents; auto. }
  split.
  - by apply makedirs_id.
  - intros _. by apply stat_parent_after.
Qed.

(** ** Running the path methods on resolved paths *)

Lemma Path_exists_run (p : PurePath) (w : world) :
  resolved p → Path_exists p w = (Ok (os.exists_ (fs w) (tail p)), w).
Proof. intros Hp. unfold Path_exists, bind, key, read_fs. by rewrite path_key_resolved. Qed.

Lemma Path_is_dir_run (p : PurePath) (w : world) :
  resolved p → Path_is_dir p w = (Ok (os.is_dir (fs w) (tail p)), w).
Proof. intros Hp. unfold Path_is_dir, bind, key, read_fs. by rewrite path_key_resolved. Qed.

Lemma Path_mkdir_parents_run (p : PurePath) (w : world) (fs1 : filesystem) :
  resolved p →
  os.mkdir_parents (fs w) (removelast (tail p)) = Ok fs1 →
  Path_mkdir_parents (pathlib.parent p) w = (Ok tt, mkWorld fs1 (cwd w) (log w)).
Proof.
  intros Hp Hrun. unfold Path_mkdir_parents, bind, key, update_fs.
  rewrite path_key_resolved by (by apply resolved_parent). simpl. by rewrite Hrun.
Qed.

Lemma Path_write_text_run (p : PurePath) (w : world) (content : string) (fs1 : filesystem) :
  resolved p →
  os.write_file (fs w) (tail p) content = Ok fs1 →
  Path_write_text p content w = (Ok tt, mkWorld fs1 (cwd w) (log w)).
Proof.
  intros Hp Hrun. unfold Path_write_text, bind, key, update_fs.
  rewrite path_key_resolved by done. simpl. by rewrite Hrun.
Qed.

Lemma shutil_copy_run (src dst : PurePath) (w : world) (fs1 : filesystem) :
  resolved src → resolved dst →
  os.shutil_copy (fs w) (tail src) (tail dst) = Ok fs1 →
  shutil_copy src dst w = (Ok tt, mkWorld fs1 (cwd w) (log w)).
Proof.
  intros Hs Hd Hrun. unfold shutil_copy, bind, key, update_fs.
  rewrite !path_key_resolved by done. simpl. by rewrite Hrun.
Qed.

Lemma Path_absolute_run (p : PurePath) (w : world) :
  resolved p → Path_absolute p w = (Ok p, w).
Proof. intros [Hp _]. unfold Path_absolute. by rewrite Hp. Qed.

(** ** Creating and copying files *)


Lemma read_file_stat (fs : filesystem) (k : list string) (content : string) :
  os.read_file fs k = Ok content ↔ os.stat fs k = Some (File content).
Proof.
  unfold os.read_file. destruct (os.stat fs k) as [[c|]|]; split; intros; by simplify_eq.
Qed.



(** ** What a successful run tells *)

Lemma makedirs_Ok_inv (fs fs' : filesystem) (above segs : list string) :
  os.makedirs fs above segs = Ok fs' →
  ∀ p c, p `prefix_of` segs → p ≠ [] → os.stat fs (above ++ p) ≠ Some (File c).
Proof.
  revert fs above. induction segs as [|seg rest IH]; intros fs above Hrun p c Hp Hne.
  { by apply prefix_nil_inv in Hp. }
  simpl in Hrun. destruct p as [|x p]; [done|].
  assert (x = seg) as -> by (destruct Hp as [r Hp]; by simplify_eq/=).
  apply prefix_cons_inv_2 in Hp.
  assert (above ++ [seg] ≠ []) as Hnil by (by destruct above).
  destruct p as [|y p].
  - destruct (os.stat fs (above ++ [seg])) as [[?|]|]; [done|congruence..].
  - replace (above ++ seg :: y :: p) with ((above ++ [seg]) ++ y :: p)
      by (by rewrite <- app_assoc).
    destruct (os.stat fs (above ++ [seg])) as [[?|]|] eqn:Hhere; [done|..].
    + by eapply IH.
    + intros Hfile. eapply (IH _ _ Hrun (y :: p) c); [done..|].
      rewrite stat_insert by done. rewrite decide_False; [done|].
      intros E. apply (f_equal length) in E. rewrite !length_app in E. simpl in E. lia.
Qed.

(** After a successful [mkdir] of the parents of [k]: what existed is
    kept and the entry at [k] itself is as before. *)
Lemma mkdir_parents_Ok_inv (fs fs1 : filesystem) (k : list string) :
  k ≠ [] →
  os.mkdir_parents fs (removelast k) = Ok fs1 →
  (∀ k' n, os.stat fs k' = Some n → os.stat fs1 k' = Some n)
  ∧ os.stat fs1 k = os.stat fs k
  ∧ os.stat fs1 (removelast k) = Some Dir.
Proof.
  intros Hk Hrun. unfold os.mkdir_parents in *.
  destruct (makedirs_Ok fs [] (removelast k)) as (fs' & Hrun' & Hdirs & Hkeep & Hout).
  { by eapply makedirs_Ok_inv. }
  assert (fs' = fs1) as -> by congruence. split; [done|]. split.
  - apply Hout. intros p [_ Hne]%parents_prefix_removelast. naive_solver.
  - by apply stat_parent_after.
Qed.

Lemma write_file_Ok_inv (fs fs1 : filesystem) (k : list string) (content : string) :
  os.write_file fs k content = Ok fs1 →
  k ≠ [] ∧ fs1 = <[k := File content]> fs ∧ os.read_file fs1 k = Ok content.
Proof.
  unfold os.write_file. intros Hrun.
  assert (k ≠ []) as Hk by (intros ->; done).
  destruct (os.stat fs k) as [[?|]|]; try done;
    destruct (os.stat fs (removelast k)) as [[?|]|]; try done;
    injection Hrun as <-; (split; [done|]); (split; [done|]);
    unfold os.read_file; rewrite stat_insert by done; by rewrite decide_True.
Qed.

Lemma update_fs_Ok_inv (f : filesystem → result filesystem) (w w' : world) :
  update_fs f w = (Ok tt, w') →
  ∃ fs1, f (fs w) = Ok fs1 ∧ w' = mkWorld fs1 (cwd w) (log w).
Proof.
  unfold update_fs. destruct (f (fs w)) as [fs1|]; [|done]. intros [= <-]. by exists fs1.
Qed.

(** A successful [__copy_file] of a regular file onto a destination
    that is not a directory leaves the content of the source at the
    destination. *)
Lemma copy_file_Ok_inv (src dst : PurePath) (w w' : world) (content : string) :
  resolved src → resolved dst →
  os.read_file (fs w) (tail src) = Ok content →
  os.is_dir (fs w) (tail dst) = false →
  __copy_file src dst w = (Ok tt, w') →
  os.read_file (fs w') (tail dst) = Ok content
  ∧ (∀ k n, os.stat (fs w) k = Some n → k ≠ tail dst → os.stat (fs w') k = Some n)
  ∧ cwd w' = cwd w.
Proof.
  intros Hsrc Hdst Hcontent Hdir Hrun. unfold __copy_file in Hrun.
  assert (tail dst ≠ []) as Hnil by (intros E; by rewrite E in Hdir).
  erewrite bind_Ok in Hrun by (by apply Path_exists_run).
  apply bind_Ok_inv in Hrun as ([] & w1 & Hmk & Hrun).
  unfold Path_mkdir_parents in Hmk. erewrite bind_Ok in Hmk by reflexivity.
  rewrite path_key_resolved in Hmk by (by apply resolved_parent).
  apply update_fs_Ok_inv in Hmk as (fs1 & Hmk & ->).
  apply mkdir_parents_Ok_inv in Hmk as (Hkeep & Hsame & Hparent); [|done].
  apply bind_Ok_inv in Hrun as ([] & w2 & Hcopy & Hrun).
  unfold shutil_copy in Hcopy. do 2 erewrite bind_Ok in Hcopy by reflexivity.
  rewrite !path_key_resolved in Hcopy by done.
  apply update_fs_Ok_inv in Hcopy as (fs2 & Hcopy & ->). cbn [fs cwd log] in *.
  apply read_file_stat in Hcontent as Hstat. apply Hkeep in Hstat.
  unfold os.shutil_copy in Hcopy. unfold os.is_dir in Hcopy, Hdir.
  rewrite Hsame in Hcopy. destruct (os.stat (fs w) (tail dst)) as [[?|]|] eqn:Hd; try done;
    (destruct (os.exists_ fs1 (tail src) && bool_decide (tail src = tail dst)); [done|]);
    rewrite (proj2 (read_file_stat _ _ _) Hstat) in Hcopy;
    apply write_file_Ok_inv in Hcopy as (_ & -> & Hread);
    erewrite bind_Ok in Hrun by (by apply Path_absolute_run);
    erewrite bind_Ok in Hrun by (by apply Path_absolute_run);
    injection Hrun as <-; cbn [fs cwd]; (split; [done|]); (split; [|done]);
    intros k n Hk Hne; rewrite stat_insert by done; rewrite decide_False by done;
    by apply Hkeep.
Qed.

Lemma Path_resolve_fst (q p : PurePath) (strict : bool) (w : world) :
  (Path_resolve q strict w).1 = Ok p → Path_resolve q strict w = (Ok p, w).
Proof.
  unfold Path_resolve. destruct (pathlib.is_absolute q);
    destruct (os.realpath _ _ _ _); simpl; congruence.
Qed.

Lemma Path_resolve_world {q : PurePath} {strict : bool} {w w' : world} {r : result PurePath} :
  Path_resolve q strict w = (r, w') → w' = w.
Proof.
  unfold Path_resolve. destruct (pathlib.is_absolute q);
    destruct (os.realpath _ _ _ _); simpl; congruence.
Qed.

(** ** Running one statement *)


Lemma lift_run {A} (r : result A) (w : world) : lift r w = (r, w).
Proof. by destruct r. Qed.

Lemma Path_read_text_run (p : PurePath) (w : world) :
  Path_read_text p w = (os.read_file (fs w) (os.path_key (cwd w) p), w).
Proof.
  unfold Path_read_text. erewrite bind_Ok by reflexivity.
  erewrite bind_Ok by reflexivity. apply lift_run.
Qed.

Lemma Path_resolve_same (q : PurePath) (strict : bool) (w1 w2 : world) :
  fs w1 = fs w2 → cwd w1 = cwd w2 →
  (Path_resolve q strict w1).1 = (Path_resolve q strict w2).1.
Proof.
  intros Hfs Hcwd. unfold Path_resolve. rewrite Hfs, Hcwd.
  destruct (pathlib.is_absolute q); by destruct (os.realpath _ _ _ _).
Qed.


(** ** Local themes *)

Section themes.

Context `{!Collaborators}.

(** A successful [__copy] of a regular file is a successful
    [__copy_file]. *)
Lemma copy_regular_file (src dst : PurePath) (w : world) (content : string) :
  resolved src →
  os.read_file (fs w) (tail src) = Ok content →
  __copy src dst w = __copy_file src dst w.
Proof.
  intros Hsrc Hcontent. unfold __copy.
  erewrite bind_Ok by (by apply Path_is_dir_run).
  apply read_file_stat in Hcontent. unfold os.is_dir. by rewrite Hcontent.
Qed.

(** A successful [__copy_theme] of a local theme that is a regular file
    leaves the content of the theme at its output location. *)
Lemma copy_theme_local_inv (self : MarkupGenerator) (file_using_theme_path : PurePath)
    (theme : string) (p : PurePath) (content : string) (r : theme_ref) (w w' : world) :
  __is_absolute_url theme = Ok false →
  (Path_resolve (pathlib.Path theme) true w).1 = Ok p →
  resolved p →
  resolved (theme_output_path_of self p) →
  os.read_file (fs w) (tail p) = Ok content →
  os.is_dir (fs w) (tail (theme_output_path_of self p)) = false →
  __copy_theme self file_using_theme_path (PyStr theme) w = (Ok r, w') →
  os.read_file (fs w') (tail (theme_output_path_of self p)) = Ok content
  ∧ (∀ k n, os.stat (fs w) k = Some n → k ≠ tail (theme_output_path_of self p) →
            os.stat (fs w') k = Some n)
  ∧ cwd w' = cwd w.
Proof.
  intros Hurl Hp%Path_resolve_fst Hres Hout Hcontent Hdir Hrun.
  unfold __copy_theme in Hrun. rewrite Hurl in Hrun.
  erewrite bind_Ok in Hrun by reflexivity. cbv beta iota in Hrun.
  erewrite bind_Ok in Hrun by exact Hp.
  erewrite bind_Ok in Hrun by reflexivity.
  apply bind_Ok_inv in Hrun as (rel & w2 & Hcopy & Hrun).
  unfold __copy_to_output in Hcopy.
  apply bind_Ok_inv in Hcopy as ([] & w3 & Hcopy & Hrel).
  apply bind_Ok_inv in Hrel as (rel' & w4 & [_ ->]%lift_Ok_inv & [= <- <-]).
  apply bind_Ok_inv in Hrun as (rel'' & w5 & [_ ->]%lift_Ok_inv & [= <- <-]).
  rewrite (copy_regular_file _ _ _ content) in Hcopy by done.
  by apply (copy_file_Ok_inv _ _ _ _ content) in Hcopy.
Qed.

(** C8: the output location of a local theme is the output assets
    directory joined with the file name of the resolved theme path and
    nothing else, so two themes with the same file name have the same
    output location; and when both are regular files that
    [__copy_theme] copies one after the other, the location holds the
    content of the first after the first copy and the content of the
    second after the second copy. *)
Theorem themes_keyed_by_file_name (self : MarkupGenerator)
    (file1 file2 : PurePath) (theme1 theme2 : string) (p1 p2 : PurePath)
    (content1 content2 : string) (r1 r2 : theme_ref) (w w1 w2 : world) :
  __is_absolute_url theme1 = Ok false →
  __is_absolute_url theme2 = Ok false →
  (Path_resolve (pathlib.Path theme1) true w).1 = Ok p1 →
  (Path_resolve (pathlib.Path theme2) true w1).1 = Ok p2 →
  resolved p1 → resolved p2 →
  pathlib.name p1 = pathlib.name p2 →
  os.read_file (fs w) (tail p1) = Ok content1 →
  os.read_file (fs w1) (tail p2) = Ok content2 →
  resolved (theme_output_path_of self p1) →
  os.is_dir (fs w) (tail (theme_output_path_of self p1)) = false →
  __copy_theme self file1 (PyStr theme1) w = (Ok r1, w1) →
  __copy_theme self file2 (PyStr theme2) w1 = (Ok r2, w2) →
  theme_output_path_of self p1
  = pathlib.joinpath (output_assets_path self) (pathlib.Path (pathlib.name p1))
  ∧ theme_output_path_of self p2 = theme_output_path_of self p1
  ∧ os.read_file (fs w1) (tail (theme_output_path_of self p1)) = Ok content1
  ∧ os.read_file (fs w2) (tail (theme_output_path_of self p1)) = Ok content2.
Proof.
  intros Hurl1 Hurl2 Hp1 Hp2 Hres1 Hres2 Hname Hc1 Hc2 Hout Hdir Hrun1 Hrun2.
  assert (theme_output_path_of self p2 = theme_output_path_of self p1) as Hsame.
  { unfold theme_output_path_of. by rewrite Hname. }
  split; [done|]. split; [done|].
  destruct (copy_theme_local_inv _ _ _ _ _ _ _ _ Hurl1 Hp1 Hres1 Hout Hc1 Hdir Hrun1)
    as (Hread1 & _ & _).
  split; [done|].
  rewrite <- Hsame in Hout |- *.
  eapply (copy_theme_local_inv _ _ _ _ _ _ _ _ Hurl2 Hp2 Hres2 Hout Hc2); [|exact Hrun2].
  rewrite Hsame. unfold os.is_dir. apply read_file_stat in Hread1. by rewrite Hread1.
Qed.

End themes.

Lemma themes_keyed_by_file_name_witness :
  let self := sample_generator sample_config in
  let file := mkPath "/" ["site"; "slides"; "a.html"] in
  let run1 := @__copy_theme sample_collaborators self file (PyStr "themes/dark.css")
                sample_world in
  let run2 := @__copy_theme sample_collaborators self file (PyStr "vendor/dark.css")
                run1.2 in
  theme_output_path_of self (mkPath "/" ["app"; "vendor"; "dark.css"])
  = theme_output_path_of self (mkPath "/" ["app"; "themes"; "dark.css"])
  ∧ os.read_file (fs run1.2) ["site"; "assets"; "dark.css"] = Ok "body { color: white }"
  ∧ os.read_file (fs run2.2) ["site"; "assets"; "dark.css"] = Ok "body { color: grey }".
Proof.
  intros self file run1 run2.
  eapply proj2, (@themes_keyed_by_file_name sample_collaborators self file file
      "themes/dark.css" "vendor/dark.css"
      (mkPath "/" ["app"; "themes"; "dark.css"]) (mkPath "/" ["app"; "vendor"; "dark.css"])
      "body { color: white }" "body { color: grey }"
      (ThemePath (mkPath "" [".."; "assets"; "dark.css"]))
      (ThemePath (mkPath "" [".."; "assets"; "dark.css"]))
      sample_world run1.2 run2.2).
  - reflexivity.
  - reflexivity.
  - reflexivity.
  - vm_compute. reflexivity.
  - split; [reflexivity|compute_done].
  - split; [reflexivity|compute_done].
  - reflexivity.
  - reflexivity.
  - vm_compute. reflexivity.
  - split; [reflexivity|compute_done].
  - reflexivity.
  - vm_compute. reflexivity.
  - vm_compute. reflexivity.
Defined.

(** ** Resolving paths *)

Lemma prefix_snoc_cases (p l : list string) (x : string) :
  p `prefix_of` l ++ [x] → p = l ++ [x] ∨ p `prefix_of` l.
Proof.
  intros [r Hr]. destruct r as [|y r _] using rev_ind.
  - left. by rewrite app_nil_r in Hr.
  - right. rewrite app_assoc in Hr. apply app_inj_tail in Hr as [-> _]. by exists r.
Qed.

Lemma chain_nil (fs : filesystem) : chain fs [].
Proof. split; [by intros ?%elem_of_nil|]. by intros p ->%prefix_nil_inv. Qed.


(** In strict mode [realpath] returns the lexical walk of the segments,
    every directory on the way down to the result exists, and the only
    way to fail is a missing entry: [FileNotFoundError], or
    [NotADirectoryError] when the entry is looked for in a regular file. *)
Lemma realpath_strict_Ok (fs : filesystem) (segs above k : list string) :
  chain fs above →
  os.realpath fs true above segs = Ok k →
  k = foldl follow_segment above segs ∧ chain fs k.
Proof.
  revert above. induction segs as [|seg rest IH]; intros above Hchain; simpl.
  - by intros [= <-].
  - unfold follow_segment at 2. destruct (decide (seg = "..")) as [->|Hseg].
    + apply IH. destruct Hchain as [Hdd Hex]. split.
      * intros H. by apply Hdd, elem_of_removelast.
      * intros p [Hp _]%parents_prefix_removelast. by apply Hex.
    + destruct (os.exists_ fs (above ++ [seg])) eqn:Hhere; [|done]. simpl.
      apply IH. destruct Hchain as [Hdd Hex]. split.
      * rewrite elem_of_app, list_elem_of_singleton. intros [?|?]; by subst.
      * intros p [->|Hp]%prefix_snoc_cases; [done|by apply Hex].
Qed.




Lemma realpath_chain (fs : filesystem) (above rest : list string) :
  chain fs (above ++ rest) → os.realpath fs true above rest = Ok (above ++ rest).
Proof.
  revert above. induction rest as [|seg rest IH]; intros above Hchain; simpl.
  - by rewrite app_nil_r.
  - destruct Hchain as [Hdd Hex].
    rewrite decide_False.
    2: { intros ->. apply Hdd. apply elem_of_app. right. by left. }
    rewrite Hex; [|apply prefix_app, prefix_cons, prefix_nil]. simpl.
    replace (above ++ seg :: rest) with ((above ++ [seg]) ++ rest) by (by rewrite <- app_assoc).
    apply IH. split; by rewrite <- app_assoc.
Qed.


(** Resolving the result of resolving an absolute path gives it back. *)
Lemma Path_resolve_idem (q image : PurePath) (w : world) :
  pathlib.is_absolute q = true →
  Path_resolve q true w = (Ok image, w) →
  Path_resolve image true w = (Ok image, w) ∧ resolved image.
Proof.
  intros Habs. unfold Path_resolve. rewrite Habs.
  destruct (os.realpath (fs w) true [] (tail q)) as [k|e] eqn:Hrun; [|done].
  intros [= <-]. apply realpath_strict_Ok in Hrun as [_ Hchain]; [|apply chain_nil].
  change (pathlib.is_absolute (mkPath "/" k)) with true. cbn [anchor tail].
  rewrite (realpath_chain (fs w) [] k) by done. split; [done|]. split; [done|apply Hchain].
Qed.

(** ** Loops *)

Lemma for_each_app_Ok {A} (l1 l2 : list A) (body : A → M unit) (w w' : world) :
  for_each l1 body w = (Ok tt, w') →
  for_each (l1 ++ l2) body w = for_each l2 body w'.
Proof.
  revert w. induction l1 as [|x l1 IH]; intros w; simpl.
  - by intros [= <-].
  - unfold bind. destruct (body x w) as [[[]|e] wx]; [apply IH|done].
Qed.

Lemma create_file_Ok_inv (dst : PurePath) (content : string) (w w' : world) :
  __create_file dst content w = (Ok tt, w') →
  os.read_file (fs w') (os.path_key (cwd w') dst) = Ok content ∧ cwd w' = cwd w.
Proof.
  unfold __create_file. intros Hrun.
  apply bind_Ok_inv in Hrun as (present & w0 & Hex & Hrun).
  unfold Path_exists in Hex. erewrite bind_Ok in Hex by reflexivity.
  injection Hex as <- <-.
  assert (∀ w1 w2, (Path_write_text dst content w1 = (Ok tt, w2)) →
                   os.read_file (fs w2) (os.path_key (cwd w2) dst) = Ok content
                   ∧ cwd w2 = cwd w1) as Hwrite.
  { intros w1 w2 Hw. unfold Path_write_text in Hw. erewrite bind_Ok in Hw by reflexivity.
    apply update_fs_Ok_inv in Hw as (fs1 & Hw & ->).
    by apply write_file_Ok_inv in Hw as (_ & _ & Hread). }
  destruct (os.exists_ (fs w) (os.path_key (cwd w) dst)).
  - apply bind_Ok_inv in Hrun as ([] & w1 & Hw & [= <-]). by apply Hwrite in Hw.
  - apply bind_Ok_inv in Hrun as ([] & w1 & Hmk & Hrun).
    unfold Path_mkdir_parents in Hmk. erewrite bind_Ok in Hmk by reflexivity.
    apply update_fs_Ok_inv in Hmk as (fs1 & _ & ->).
    apply bind_Ok_inv in Hrun as ([] & w2 & Hw & [= <-]). by apply Hwrite in Hw.
Qed.

(** ** Image references *)

Section images.

Context `{!Collaborators}.

(** When [write_markup] returns, the rendered markup is on disk at the
    output path of the Markdown file. *)
Lemma write_markup_Ok_inv (self : MarkupGenerator) (md_file out : PurePath)
    (metadata : gmap string pyval) (markdown : string) (w w1 : world) :
  write_markup self md_file w = (Ok (metadata, markdown, out), w1) →
  output_markup_path_of self md_file = Ok out
  ∧ ∃ markup, os.read_file (fs w1) (os.path_key (cwd w1) out) = Ok markup.
Proof.
  unfold write_markup. intros Hrun.
  apply bind_Ok_inv in Hrun as ([] & w0 & _ & Hrun).
  apply bind_Ok_inv in Hrun as (content & w2 & _ & Hrun).
  apply bind_Ok_inv in Hrun as ([metadata' markdown'] & w3 & _ & Hrun).
  apply bind_Ok_inv in Hrun as (out' & w4 & [Hout _]%lift_Ok_inv & Hrun).
  apply bind_Ok_inv in Hrun as (rel & w5 & _ & Hrun).
  apply bind_Ok_inv in Hrun as (theme & w6 & _ & Hrun).
  apply bind_Ok_inv in Hrun as (tpl & w7 & _ & Hrun).
  apply bind_Ok_inv in Hrun as (markup & w8 & _ & Hrun).
  apply bind_Ok_inv in Hrun as ([] & w9 & Hcreate & [= <- <- <- <-]).
  apply create_file_Ok_inv in Hcreate as [Hread _]. split; [done|]. by exists markup.
Qed.

(** From the state in which a reference is reached, the rest of
    [__process_markdown_file] is the copy of that reference and of those
    after it. *)
Lemma process_markdown_file_at (self : MarkupGenerator) (md_file out : PurePath)
    (metadata : gmap string pyval) (markdown : string)
    (pre post : list string) (location : string) (w w1 w2 : world) :
  write_markup self md_file w = (Ok (metadata, markdown, out), w1) →
  image_locations markdown = pre ++ location :: post →
  for_each pre (copy_image self md_file) w1 = (Ok tt, w2) →
  __process_markdown_file self md_file w
  = match copy_image self md_file location w2 with
    | (Ok _, w3) =>
        match for_each post (copy_image self md_file) w3 with
        | (Ok _, w4) => (Ok (metadata, out), w4)
        | (Err e, w4) => (Err e, w4)
        end
    | (Err e, w3) => (Err e, w3)
    end.
Proof.
  intros Hwrite Hlocs Hpre. unfold __process_markdown_file.
  erewrite bind_Ok by exact Hwrite. cbv beta iota.
  unfold __copy_images. rewrite Hlocs. unfold bind at 1.
  rewrite (for_each_app_Ok _ _ _ _ _ Hpre). simpl. unfold bind at 1.
  destruct (copy_image self md_file location w2) as [[[]|e] w3]; [|done].
  by destruct (for_each post (copy_image self md_file) w3) as [[[]|e] w4].
Qed.

(** C2: a Markdown file whose body references an image by an absolute
    path that exists and resolves outside the source root.  The output
    HTML is on disk before the images are visited; at the reference one
    warning is logged and the file system is not touched (no copy); and
    the processing of the file goes on with the references after it,
    returning the metadata and the output path when those are copied
    without error. *)
Theorem outside_root_reference_skipped (self : MarkupGenerator) (md_file out image : PurePath)
    (metadata : gmap string pyval) (markdown : string)
    (pre post : list string) (location : string) (w w1 w2 : world) :
  write_markup self md_file w = (Ok (metadata, markdown, out), w1) →
  image_locations markdown = pre ++ location :: post →
  for_each pre (copy_image self md_file) w1 = (Ok tt, w2) →
  pathlib.is_absolute (pathlib.Path location) = true →
  (Path_resolve (pathlib.Path location) true w2).1 = Ok image →
  pathlib.is_relative_to image (md_root_path self) = false →
  let w3 := mkWorld (fs w2) (cwd w2) (log w2 ++ [outside_root_warning image]) in
  (∃ markup, os.read_file (fs w1) (os.path_key (cwd w1) out) = Ok markup)
  ∧ copy_image self md_file location w2 = (Ok tt, w3)
  ∧ (∀ w4, for_each post (copy_image self md_file) w3 = (Ok tt, w4) →
           __process_markdown_file self md_file w = (Ok (metadata, out), w4))
  ∧ (post = [] → __process_markdown_file self md_file w = (Ok (metadata, out), w3)).
Proof.
  intros Hwrite Hlocs Hpre Habs Himage%Path_resolve_fst Houtside w3.
  assert (copy_image self md_file location w2 = (Ok tt, w3)) as Hcopy.
  { unfold copy_image, pathlib.joinpath. rewrite Habs.
    erewrite bind_Ok by exact Himage.
    destruct (Path_resolve_idem _ _ _ Habs Himage) as [Hagain Hres].
    unfold __copy_to_output_relative_to_md_root.
    erewrite (bind_Ok (bind _ _)); [reflexivity|].
    erewrite bind_Ok by exact Hagain. rewrite Houtside. cbn [negb].
    erewrite bind_Ok by (by apply Path_absolute_run). reflexivity. }
  split; [by apply write_markup_Ok_inv in Hwrite as [_ ?]|]. split; [done|].
  rewrite (process_markdown_file_at _ _ _ _ _ _ _ _ _ _ _ Hwrite Hlocs Hpre), Hcopy.
  split.
  - by intros w4 ->.
  - by intros ->.
Qed.


End images.

Lemma outside_root_reference_skipped_witness :
  let self := sample_generator sample_config in
  let md_file := mkPath "/" ["docs"; "slides"; "sub"; "b.md"] in
  let w1 := (@write_markup sample_collaborators self md_file sample_world).2 in
  @__process_markdown_file sample_collaborators self md_file sample_world
  = (Ok (∅, mkPath "/" ["site"; "slides"; "sub"; "b.html"]),
     mkWorld (fs w1) (cwd w1)
       (log w1 ++ [outside_root_warning (mkPath "/" ["etc"; "logo.png"])])).
Proof.
  intros self md_file w1.
  destruct (@outside_root_reference_skipped sample_collaborators self md_file
              (mkPath "/" ["site"; "slides"; "sub"; "b.html"])
              (mkPath "/" ["etc"; "logo.png"]) ∅ "/etc/logo.png" [] [] "/etc/logo.png"
              sample_world w1 w1) as (_ & _ & _ & Hdone).
  - vm_compute. reflexivity.
  - reflexivity.
  - reflexivity.
  - reflexivity.
  - vm_compute. reflexivity.
  - reflexivity.
  - by apply Hdone.
Defined.


(** ** Relative references *)

Section references.

Context `{!Collaborators}.

(** A theme reference that is a path comes from the branch of
    [__copy_theme] for local themes: the theme resolved, and the
    reference is what [relative_to] gave for the copy's location. *)
Lemma copy_theme_path_inv (self : MarkupGenerator) (file_using_theme_path : PurePath)
    (theme : string) (rel : PurePath) (w w' : world) :
  __copy_theme self file_using_theme_path (PyStr theme) w = (Ok (ThemePath rel), w') →
  ∃ p, (Path_resolve (pathlib.Path theme) true w).1 = Ok p
    ∧ pathlib.relative_to (theme_output_path_of self p)
        (pathlib.parent file_using_theme_path) true = Ok rel.
Proof.
  unfold __copy_theme. intros Hrun.
  apply bind_Ok_inv in Hrun as (is_url & w1 & [_ ->]%lift_Ok_inv & Hrun).
  destruct is_url.
  - apply bind_Ok_inv in Hrun as ([] & w2 & _ & [= ]).
  - apply bind_Ok_inv in Hrun as (p & w2 & Hp & Hrun).
    pose proof (Path_resolve_world Hp) as ->.
    apply bind_Ok_inv in Hrun as ([] & w3 & _ & Hrun).
    apply bind_Ok_inv in Hrun as (copied & w4 & _ & Hrun).
    apply bind_Ok_inv in Hrun as (rel' & w5 & [Hrel _]%lift_Ok_inv & [= <- _]).
    exists p. split; [by rewrite Hp|done].
Qed.

(** C1: the relative references a page is rendered with lead to their
    targets.  When [__process_markdown_file] has written the markup of a
    file, the page on disk is what the slideshow template rendered from
    a context whose [revealjs_path] is a relative path that, followed
    from the directory of the output file, ends exactly at the framework
    directory of the output ([output_revealjs_path], given without
    double-dot segments, as [__init__] leaves it), wherever the file
    lies below the output directory; and whose [theme], when it is a
    path, is the reference of the configured local theme.  And every
    path that [__copy_theme] returns for a local theme is a relative
    path that, followed from the directory of the file using the theme,
    ends exactly at the location the theme is copied to (the output
    assets directory joined with the theme's file name), when that
    location has no double-dot segment. *)
Theorem relative_references_reach_targets (self : MarkupGenerator) :
  ".." ∉ tail (output_revealjs_path self) →
  (∀ md_file out metadata markdown w w1,
     write_markup self md_file w = (Ok (metadata, markdown, out), w1) →
     ∃ slideshow_template context markup,
       render_slideshow slideshow_template context = Ok markup
       ∧ os.read_file (fs w1) (os.path_key (cwd w1) out) = Ok markup
       ∧ anchor (sc_revealjs_path context) = ""
       ∧ follow (pathlib.parent out) (sc_revealjs_path context) = output_revealjs_path self
       ∧ (∀ rel, sc_theme context = Some (ThemePath rel) →
            ∃ p, slides_theme_path self w = Some p
              ∧ ((".." ∉ tail (theme_output_path_of self p)) →
                 anchor rel = ""
                 ∧ follow (pathlib.parent out) rel = theme_output_path_of self p)))
  ∧ (∀ file_using_theme_path theme rel w w',
       __copy_theme self file_using_theme_path (PyStr theme) w = (Ok (ThemePath rel), w') →
       ∃ p, (Path_resolve (pathlib.Path theme) true w).1 = Ok p
         ∧ ((".." ∉ tail (theme_output_path_of self p)) →
            anchor rel = ""
            ∧ follow (pathlib.parent file_using_theme_path) rel
              = theme_output_path_of self p)).
Proof.
  intros Hreveal. split.
  - intros md_file out metadata markdown w w1 Hrun. unfold write_markup in Hrun.
    apply bind_Ok_inv in Hrun as ([] & w2 & [= <-] & Hrun).
    apply bind_Ok_inv in Hrun as (content & w3 & Hread & Hrun).
    rewrite Path_read_text_run in Hread. injection Hread as _ <-.
    apply bind_Ok_inv in Hrun as ([metadata' markdown'] & w4 & [_ ->]%lift_Ok_inv & Hrun).
    apply bind_Ok_inv in Hrun as (out' & w5 & [_ ->]%lift_Ok_inv & Hrun).
    apply bind_Ok_inv in Hrun as (rel_reveal & w6 & [Hrel ->]%lift_Ok_inv & Hrun).
    apply bind_Ok_inv in Hrun as (theme & w7 & Htheme & Hrun).
    apply bind_Ok_inv in Hrun as (tpl & w8 & _ & Hrun).
    apply bind_Ok_inv in Hrun as (markup & w9 & [Hrender _]%lift_Ok_inv & Hrun).
    apply bind_Ok_inv in Hrun as ([] & w10 & Hcreate & [= <- <- <- <-]).
    apply create_file_Ok_inv in Hcreate as [Hmarkup _].
    destruct (relative_to_walk_up_sound _ _ _ Hreveal Hrel) as [Hanchor Hfollow].
    eexists tpl, _, markup. split; [exact Hrender|]. cbn [sc_revealjs_path sc_theme].
    split; [done|]. split; [done|]. split; [done|].
    intros rel ->. unfold configured_theme in Htheme.
    destruct (truthy (Config_get (config self) ["slides"; "theme"])); [|done].
    apply bind_Ok_inv in Htheme as (r & w11 & Hcopy & [= ->]).
    unfold slides_theme_path.
    destruct (Config_get (config self) ["slides"; "theme"]) as [| | |theme| |]; try done.
    apply copy_theme_path_inv in Hcopy as (p & Hp & Hrel').
    rewrite (Path_resolve_same _ _ _ w) in Hp by done. rewrite Hp.
    exists p. split; [done|]. intros Hdd.
    by apply relative_to_walk_up_sound.
  - intros file theme rel w w' (p & Hp & Hrel)%copy_theme_path_inv.
    exists p. split; [done|]. intros Hdd. by apply relative_to_walk_up_sound.
Qed.

End references.

Lemma relative_references_reach_targets_witness :
  let self := sample_generator sample_config in
  let md_file := mkPath "/" ["docs"; "slides"; "sub"; "b.md"] in
  let out := mkPath "/" ["site"; "slides"; "sub"; "b.html"] in
  let w1 := (@write_markup sample_collaborators self md_file sample_world).2 in
  ∃ slideshow_template context markup,
    @render_slideshow sample_collaborators slideshow_template context = Ok markup
    ∧ os.read_file (fs w1) ["site"; "slides"; "sub"; "b.html"] = Ok markup
    ∧ anchor (sc_revealjs_path context) = ""
    ∧ follow (pathlib.parent out) (sc_revealjs_path context)
      = mkPath "/" ["site"; "assets"; "reveal-js"]
    ∧ (∀ rel, sc_theme context = Some (ThemePath rel) →
         ∃ p, slides_theme_path self sample_world = Some p
           ∧ ((".." ∉ tail (theme_output_path_of self p)) →
              anchor rel = ""
              ∧ follow (pathlib.parent out) rel = theme_output_path_of self p)).
Proof.
  intros self md_file out w1.
  destruct (@relative_references_reach_targets sample_collaborators self) as [Hpage _].
  - compute_done.
  - apply (Hpage md_file out ∅ "/etc/logo.png" sample_world w1).
    vm_compute. reflexivity.
Defined.

(** ** Index entries *)

Section index.

Context `{!Collaborators}.

(** What [__process_markdown_file] returns as metadata is the front
    matter of the content the file holds when the call starts. *)
Lemma process_markdown_file_metadata (self : MarkupGenerator) (md_file out : PurePath)
    (metadata : gmap string pyval) (w w1 : world) :
  __process_markdown_file self md_file w = (Ok (metadata, out), w1) →
  ∃ content markdown,
    os.read_file (fs w) (os.path_key (cwd w) md_file) = Ok content
    ∧ frontmatter_parse content = Ok (metadata, markdown).
Proof.
  unfold __process_markdown_file. intros Hrun.
  apply bind_Ok_inv in Hrun as ([[metadata' markdown'] out'] & w2 & Hwrite & Hrun).
  apply bind_Ok_inv in Hrun as ([] & w3 & _ & [= -> _ _]).
  unfold write_markup in Hwrite.
  apply bind_Ok_inv in Hwrite as ([] & w4 & [= <-] & Hwrite).
  apply bind_Ok_inv in Hwrite as (content & w5 & Hread & Hwrite).
  apply bind_Ok_inv in Hwrite as ([metadata0 markdown0] & w6 & [Hparse _]%lift_Ok_inv & Hwrite).
  unfold Path_read_text in Hread.
  apply bind_Ok_inv in Hread as (k & w7 & [= <- <-] & Hread).
  apply bind_Ok_inv in Hread as (r & w8 & [= <- <-] & [Hread _]%lift_Ok_inv).
  cbn [fs cwd] in Hread.
  apply bind_Ok_inv in Hwrite as (out0 & w9 & _ & Hwrite).
  apply bind_Ok_inv in Hwrite as (rel & w10 & _ & Hwrite).
  apply bind_Ok_inv in Hwrite as (theme & w11 & _ & Hwrite).
  apply bind_Ok_inv in Hwrite as (tpl & w12 & _ & Hwrite).
  apply bind_Ok_inv in Hwrite as (markup & w13 & _ & Hwrite).
  apply bind_Ok_inv in Hwrite as ([] & w14 & _ & [= <- _ _ _]).
  by exists content, markdown0.
Qed.

Lemma process_files_entries (self : MarkupGenerator) (md_files : list PurePath)
    (slideshows entries : list slideshow_entry) (w w' : world) :
  process_files self md_files slideshows w = (Ok entries, w') →
  ∃ new, entries = slideshows ++ new ∧ index_entries self md_files w new.
Proof.
  revert slideshows w. induction md_files as [|md_file rest IH]; intros slideshows w; simpl.
  - intros [= <- <-]. exists []. by rewrite app_nil_r.
  - intros Hrun.
    apply bind_Ok_inv in Hrun as ([metadata out] & w1 & Hfile & Hrun).
    apply bind_Ok_inv in Hrun as (loc & w2 & [Hloc ->]%lift_Ok_inv & Hrun).
    apply IH in Hrun as (new & -> & Hnew).
    exists (mkEntry (entry_title metadata md_file) loc :: new).
    split; [by rewrite <- app_assoc|].
    destruct (process_markdown_file_metadata _ _ _ _ _ _ Hfile) as (content & markdown & Hread & Hparse).
    exists content, metadata, markdown, out, w1. repeat split; done.
Qed.

(** C6: in directory mode the index template receives one entry per
    Markdown file the glob yields, in that order, and what it renders
    from them is the index page written.  The title of the entry of a
    file is the value of the [title] field of the front matter of the
    file, as the file is when the loop reaches it, when the front matter
    has that field, and the stem of the file's path when it has not; for
    a file name with the suffix [.md] the stem is the name with that
    suffix stripped. *)
Theorem index_entry_title_fallback (self : MarkupGenerator) (w w' : world) :
  __process_markdown_directory self w = (Ok tt, w') →
  let index_path :=
    pathlib.joinpath (output_directory_path self) (pathlib.Path "index.html") in
  ∃ entries index_template theme content,
    index_entries self (glob_md (fs w) (md_root_path self)) w entries
    ∧ render_index index_template
        (mkIndexContext (Config_get (config self) ["index"; "title"]) theme entries
           datetime_now) = Ok content
    ∧ os.read_file (fs w') (os.path_key (cwd w') index_path) = Ok content
    ∧ (∀ md_file, pathlib.suffix md_file = ".md" →
                  pathlib.name md_file = pathlib.stem md_file +:+ ".md").
Proof.
  intros Hrun index_path. unfold __process_markdown_directory in Hrun.
  apply bind_Ok_inv in Hrun as (md_files & w1 & [= <- <-] & Hrun).
  apply bind_Ok_inv in Hrun as (entries & w2 & Hfiles & Hrun).
  apply bind_Ok_inv in Hrun as ([] & w3 & _ & Hrun).
  apply bind_Ok_inv in Hrun as (theme & w4 & _ & Hrun).
  apply bind_Ok_inv in Hrun as (tpl & w5 & _ & Hrun).
  apply bind_Ok_inv in Hrun as (content & w6 & [Hrender _]%lift_Ok_inv & Hcreate).
  apply process_files_entries in Hfiles as (new & -> & Hnew).
  apply create_file_Ok_inv in Hcreate as [Hread _].
  exists new, tpl, theme, content. split; [done|]. split; [done|]. split; [done|].
  intros md_file. apply stem_strips_md.
Qed.

End index.

Lemma index_entry_title_fallback_witness :
  let self := sample_generator sample_config in
  let w' := (@__process_markdown_directory sample_collaborators self sample_world).2 in
  ∃ entries index_template theme content,
    @index_entries sample_collaborators self
      [mkPath "/" ["docs"; "slides"; "a.md"]; mkPath "/" ["docs"; "slides"; "sub"; "b.md"]]
      sample_world entries
    ∧ @render_index sample_collaborators index_template
        (mkIndexContext (PyStr "Slides") theme entries tt) = Ok content
    ∧ os.read_file (fs w') ["site"; "index.html"] = Ok content
    ∧ (∀ md_file, pathlib.suffix md_file = ".md" →
                  pathlib.name md_file = pathlib.stem md_file +:+ ".md").
Proof.
  intros self w'.
  apply (@index_entry_title_fallback sample_collaborators self sample_world w').
  vm_compute. reflexivity.
Defined.

Example index_entries_sample :
  ∃ w', @process_files sample_collaborators (sample_generator sample_config)
          [mkPath "/" ["docs"; "slides"; "a.md"]; mkPath "/" ["docs"; "slides"; "sub"; "b.md"]]
          [] sample_world
        = (Ok [mkEntry (PyStr "Intro") (mkPath "" ["slides"; "a.html"]);
               mkEntry (PyStr "b") (mkPath "" ["slides"; "sub"; "b.html"])], w').
Proof. eexists. vm_compute. reflexivity. Qed.

(** ** Empty strings in the configuration *)

Lemma bind_cong {A B} (c1 c2 : M A) (k1 k2 : A → M B) (w : world) :
  c1 w = c2 w →
  (∀ a w', k1 a w' = k2 a w') →
  bind c1 k1 w = bind c2 k2 w.
Proof.
  intros Hc Hk. unfold bind. rewrite Hc. destruct (c2 w) as [[a|e] w']; [apply Hk|done].
Qed.

Lemma blank_for_absent_untested (c1 c2 : Config) (keys : list string) :
  blank_for_absent c1 c2 →
  keys ∈ plainly_read_keys →
  Config_get c1 keys = Config_get c2 keys.
Proof. intros [Hplain _] Hkeys. by apply (proj1 (Forall_forall _ _) Hplain). Qed.

(** Under the truthiness test the two values are told apart by nothing:
    both or neither pass, and a value that passes is the same. *)
Lemma blank_for_absent_tested (c1 c2 : Config) (keys : list string) :
  blank_for_absent c1 c2 →
  keys ∈ truthiness_tested_keys →
  (if truthy (Config_get c1 keys) then Some (Config_get c1 keys) else None)
  = (if truthy (Config_get c2 keys) then Some (Config_get c2 keys) else None).
Proof.
  intros [_ Htested] Hkeys.
  destruct (proj1 (Forall_forall _ _) Htested keys Hkeys) as [->|[-> ->]]; done.
Qed.

Lemma option_key_tested (option : string) :
  option ∈ markdown_option_names → ["slides"; option] ∈ truthiness_tested_keys.
Proof.
  intros Hin. unfold truthiness_tested_keys. apply elem_of_app. right.
  apply list_elem_of_fmap. by exists option.
Qed.

Section blanks.

Context `{!Collaborators}.

Lemma configured_theme_blank (self : MarkupGenerator) (c1 c2 : Config)
    (section : string) (file_using_theme_path : PurePath) (w : world) :
  blank_for_absent c1 c2 →
  [section; "theme"] ∈ truthiness_tested_keys →
  configured_theme (with_config c1 self) section file_using_theme_path w
  = configured_theme (with_config c2 self) section file_using_theme_path w.
Proof.
  intros Hrel Hkeys. unfold configured_theme. cbn [config with_config].
  pose proof (blank_for_absent_tested c1 c2 [section; "theme"] Hrel Hkeys) as Ht.
  destruct (truthy (Config_get c1 [section; "theme"])),
    (truthy (Config_get c2 [section; "theme"])); try done.
  by injection Ht as ->.
Qed.

Lemma collect_options_blank (self : MarkupGenerator) (c1 c2 : Config) :
  blank_for_absent c1 c2 →
  collect_markdown_data_options (with_config c1 self)
  = collect_markdown_data_options (with_config c2 self).
Proof.
  intros Hrel. apply map_eq. intros option.
  rewrite !markdown_data_options_lookup. cbn [config with_config].
  destruct (bool_decide _) eqn:Hin; [|done]. simpl.
  apply (blank_for_absent_tested c1 c2 ["slides"; option] Hrel).
  apply option_key_tested. by apply bool_decide_eq_true in Hin.
Qed.

Lemma write_markup_blank (self : MarkupGenerator) (c1 c2 : Config)
    (md_file : PurePath) (w : world) :
  blank_for_absent c1 c2 →
  write_markup (with_config c1 self) md_file w = write_markup (with_config c2 self) md_file w.
Proof.
  intros Hrel. unfold write_markup.
  apply bind_cong; [done|intros _ ?].
  apply bind_cong; [done|intros content ?].
  apply bind_cong; [done|intros [metadata markdown] ?].
  apply bind_cong; [done|intros out ?].
  apply bind_cong; [done|intros rel ?].
  apply bind_cong; [apply configured_theme_blank; [done|compute_done]|intros theme ?].
  cbn [config with_config].
  rewrite (blank_for_absent_untested c1 c2 ["slides"; "template"] Hrel) by compute_done.
  apply bind_cong; [done|intros tpl ?].
  rewrite (collect_options_blank self c1 c2 Hrel).
  by rewrite (blank_for_absent_untested c1 c2 ["reveal.js"] Hrel) by compute_done.
Qed.

Lemma process_markdown_file_blank (self : MarkupGenerator) (c1 c2 : Config)
    (md_file : PurePath) (w : world) :
  blank_for_absent c1 c2 →
  __process_markdown_file (with_config c1 self) md_file w
  = __process_markdown_file (with_config c2 self) md_file w.
Proof.
  intros Hrel. unfold __process_markdown_file.
  apply bind_cong; [by apply write_markup_blank|done].
Qed.

Lemma process_files_blank (self : MarkupGenerator) (c1 c2 : Config)
    (md_files : list PurePath) (slideshows : list slideshow_entry) (w : world) :
  blank_for_absent c1 c2 →
  process_files (with_config c1 self) md_files slideshows w
  = process_files (with_config c2 self) md_files slideshows w.
Proof.
  intros Hrel. revert slideshows w.
  induction md_files as [|md_file rest IH]; intros slideshows w; simpl; [done|].
  apply bind_cong; [by apply process_markdown_file_blank|intros [metadata out] ?].
  apply bind_cong; [done|intros loc ?]. apply IH.
Qed.

(** C10: an empty string under [slides.theme], [index.theme] or one of
    the Markdown rendering options is treated as an absent value.  With
    the empty string as theme no theme is resolved or copied: the theme
    reference is [None] and the world is untouched.  With the empty
    string as option the option has no entry in
    [markdown_data_options].  And a configuration that has empty strings
    where another has those keys unset gives the same processing of a
    file and of a directory: same result, same files, same log. *)
Theorem empty_string_as_absent (self : MarkupGenerator) (c1 c2 : Config) :
  blank_for_absent c1 c2 →
  (∀ section file_using_theme_path w,
     Config_get c1 [section; "theme"] = PyStr "" →
     configured_theme (with_config c1 self) section file_using_theme_path w = (Ok None, w))
  ∧ (∀ option,
       Config_get c1 ["slides"; option] = PyStr "" →
       collect_markdown_data_options (with_config c1 self) !! option = None)
  ∧ (∀ md_file w,
       __process_markdown_file (with_config c1 self) md_file w
       = __process_markdown_file (with_config c2 self) md_file w)
  ∧ (∀ w,
       __process_markdown_directory (with_config c1 self) w
       = __process_markdown_directory (with_config c2 self) w).
Proof.
  intros Hrel. split; [|split; [|split]].
  - intros section file w Hblank. unfold configured_theme. cbn [config with_config].
    by rewrite Hblank.
  - intros option Hblank.
    rewrite markdown_data_options_lookup.
    cbn [config with_config]. rewrite Hblank. simpl. by rewrite andb_false_r.
  - intros md_file w. by apply process_markdown_file_blank.
  - intros w. unfold __process_markdown_directory. cbn [config with_config md_root_path].
    apply bind_cong; [done|intros md_files ?].
    apply bind_cong; [by apply process_files_blank|intros slideshows ?].
    apply bind_cong; [done|intros _ ?].
    apply bind_cong; [apply configured_theme_blank; [done|compute_done]|intros theme ?].
    rewrite (blank_for_absent_untested c1 c2 ["index"; "template"] Hrel) by compute_done.
    apply bind_cong; [done|intros tpl ?].
    by rewrite (blank_for_absent_untested c1 c2 ["index"; "title"] Hrel) by compute_done.
Qed.

End blanks.

Lemma empty_string_as_absent_witness :
  let self := sample_generator sample_config in
  @configured_theme sample_collaborators (with_config sample_config_blank self) "slides"
    (mkPath "/" ["site"; "slides"; "a.html"]) sample_world = (Ok None, sample_world)
  ∧ collect_markdown_data_options (with_config sample_config_blank self) !! "charset" = None
  ∧ @__process_markdown_directory sample_collaborators
      (with_config sample_config_blank self) sample_world
    = @__process_markdown_directory sample_collaborators
        (with_config sample_config_absent self) sample_world.
Proof.
  intros self.
  destruct (@empty_string_as_absent sample_collaborators self
              sample_config_blank sample_config_absent) as (Htheme & Hoption & _ & Hdir).
  - split.
    + repeat (constructor; [reflexivity|]). constructor.
    + repeat (constructor; [(by left) || (by right)|]). constructor.
  - split; [by apply Htheme|]. split; [by apply Hoption|]. apply Hdir.
Defined.

(** ** The paths of a generator *)

Lemma Path_resolve_resolved (q p : PurePath) (strict : bool) (w w' : world) :
  resolved (cwd w) →
  Path_resolve q strict w = (Ok p, w') →
  resolved p.
Proof.
  intros [Habs Hdd]. unfold Path_resolve.
  destruct (pathlib.is_absolute q) eqn:Hq;
    destruct (os.realpath _ _ _ _) as [k|] eqn:Hrun; try done; intros [= <- <-].
  - split; [done|]. eapply realpath_no_dotdot; [|exact Hrun]. by intros ?%elem_of_nil.
  - split; [done|]. by eapply realpath_no_dotdot.
Qed.

Section paths.

Context `{!Collaborators}.

(** X1: [__init__] leaves resolved absolute paths in the generator, with the
    framework directory of the output at [assets/reveal-js] below the
    output directory. *)
Lemma init_resolved (c : Config) (md_root out : PurePath) (self : MarkupGenerator)
    (w w' : world) :
  resolved (cwd w) →
  __init__ c md_root out w = (Ok self, w') →
  resolved (md_root_path self)
  ∧ resolved (output_directory_path self)
  ∧ output_assets_path self
    = mkPath (anchor (output_directory_path self))
        (tail (output_directory_path self) ++ ["assets"])
  ∧ output_revealjs_path self
    = mkPath (anchor (output_directory_path self))
        (tail (output_directory_path self) ++ ["assets"; "reveal-js"]).
Proof.
  intros Hcwd. unfold __init__. intros Hrun.
  apply bind_Ok_inv in Hrun as (root & w1 & Hroot & Hrun).
  pose proof (Path_resolve_world Hroot) as ->.
  apply bind_Ok_inv in Hrun as ([] & w2 & [= <-] & Hrun).
  apply bind_Ok_inv in Hrun as (outdir & w3 & Hout & Hrun).
  pose proof (Path_resolve_world Hout) as ->.
  apply bind_Ok_inv in Hrun as ([] & w4 & _ & Hrun).
  apply bind_Ok_inv in Hrun as (assets & w5 & _ & Hrun).
  apply bind_Ok_inv in Hrun as (revealjs & w6 & _ & [= <- _]).
  cbn [md_root_path output_directory_path output_assets_path output_revealjs_path].
  split; [by eapply Path_resolve_resolved|].
  split; [by eapply (Path_resolve_resolved _ _ _ (mkWorld _ _ _)) |].
  unfold pathlib.joinpath. cbn. by rewrite <- app_assoc.
Qed.

(** The computation of [relative_revealjs_path] in
    [__process_markdown_file]: for a generator as [__init__] leaves it and
    a Markdown file without double-dot segments, the relative path is
    found and leads from the directory of the output file to the
    framework directory. *)
Lemma relative_revealjs_path_correct (self : MarkupGenerator) (md_file out : PurePath) :
  resolved (output_directory_path self) →
  output_revealjs_path self
  = mkPath (anchor (output_directory_path self))
      (tail (output_directory_path self) ++ ["assets"; "reveal-js"]) →
  ".." ∉ tail md_file →
  output_markup_path_of self md_file = Ok out →
  ∃ rel, pathlib.relative_to (output_revealjs_path self) (pathlib.parent out) true = Ok rel
         ∧ follow (pathlib.parent out) rel = output_revealjs_path self.
Proof.
  intros [Habs Hdd] Hreveal Hmd (rest & -> & Hne & ->)%output_markup_path_of_inv.
  cbn [tail] in Hmd.
  assert (".." ∉ tail (output_revealjs_path self)) as Htarget.
  { rewrite Hreveal. cbn [tail]. rewrite elem_of_app. intros [?|Hin]; [done|].
    apply elem_of_cons in Hin as [?|Hin]; [done|].
    by apply list_elem_of_singleton in Hin. }
  set (base := pathlib.parent _).
  assert (".." ∉ tail base) as Hbase.
  { unfold base. cbn [pathlib.parent tail]. rewrite removelast_last.
    intros Hin%elem_of_removelast. apply elem_of_app in Hin as [?|?]; [done|].
    apply Hmd. apply elem_of_app. by right. }
  destruct (relative_to_walk_up_total (output_revealjs_path self) base) as [rel Hrel];
    [by rewrite Hreveal|done|].
  exists rel. split; [done|]. by apply relative_to_walk_up_sound.
Qed.


End paths.

(** * Further properties of the generator *)

(** ** Construction *)

Lemma init_resolved_witness :
  ∃ self w',
    __init__ sample_config (pathlib.Path "/docs") (pathlib.Path "../site") sample_world_assets
    = (Ok self, w')
    ∧ resolved (md_root_path self)
    ∧ resolved (output_directory_path self)
    ∧ output_assets_path self
      = mkPath (anchor (output_directory_path self))
          (tail (output_directory_path self) ++ ["assets"])
    ∧ output_revealjs_path self
      = mkPath (anchor (output_directory_path self))
          (tail (output_directory_path self) ++ ["assets"; "reveal-js"]).
Proof.
  eexists _, _. split; [vm_compute; reflexivity|].
  eapply (init_resolved sample_config (pathlib.Path "/docs") (pathlib.Path "../site")
            _ sample_world_assets).
  - split; [reflexivity|compute_done].
  - vm_compute. reflexivity.
Defined.




(** ** Recognising URLs *)

Lemma find_remove_unsafe_None (c : ascii) (s : string) :
  urllib.find c s = None → urllib.find c (urllib.remove_unsafe s) = None.
Proof.
  induction s as [|a s IH]; simpl; [done|].
  destruct (Ascii.eqb a c) eqn:Hac; [done|].
  destruct (urllib.find c s); [done|]. intros _.
  destruct (urllib.is_unsafe_url_byte a); simpl; [by apply IH|].
  rewrite Hac. by rewrite IH.
Qed.

Lemma find_lstrip_None (c : ascii) (s : string) :
  urllib.find c s = None → urllib.find c (urllib.lstrip s) = None.
Proof.
  induction s as [|a s IH]; simpl; [done|].
  destruct (Ascii.eqb a c) eqn:Hac; [done|].
  destruct (urllib.find c s) eqn:Hs; [done|]. intros _.
  destruct (urllib.is_c0_control_or_space a); [by apply IH|].
  simpl. by rewrite Hac, Hs.
Qed.

Lemma mentions_take_until (c : ascii) (f : ascii → bool) (s : string) :
  urllib.mentions c (urllib.take_until f s) = true → urllib.mentions c s = true.
Proof.
  unfold urllib.mentions. induction s as [|a s IH]; simpl; [done|].
  destruct (f a); simpl; [done|].
  destruct (Ascii.eqb a c); [done|].
  destruct (urllib.find c (urllib.take_until f s)); [|done].
  intros _. by destruct (urllib.find c s); [|discriminate IH].
Qed.

Lemma mentions_remove_unsafe (c : ascii) (s : string) :
  urllib.mentions c (urllib.remove_unsafe s) = true → urllib.mentions c s = true.
Proof.
  unfold urllib.mentions.
  destruct (urllib.find c s) eqn:Hs; [done|].
  by rewrite (find_remove_unsafe_None _ _ Hs).
Qed.

Lemma isascii_take_until (f : ascii → bool) (s : string) :
  urllib.isascii s = true → urllib.isascii (urllib.take_until f s) = true.
Proof.
  unfold urllib.isascii. induction s as [|a s IH]; simpl; [done|].
  intros [Ha Hs]%andb_true_iff. destruct (f a); simpl; [done|].
  by rewrite Ha, IH.
Qed.

Lemma isascii_remove_unsafe (s : string) :
  urllib.isascii s = true → urllib.isascii (urllib.remove_unsafe s) = true.
Proof.
  unfold urllib.isascii. induction s as [|a s IH]; simpl; [done|].
  intros [Ha Hs]%andb_true_iff. destruct (urllib.is_unsafe_url_byte a); simpl; [by apply IH|].
  by rewrite Ha, IH.
Qed.

Lemma urlparse_rest_https (rest : string) :
  urllib.urlparse_rest ("https://" +:+ rest) = String "/" (String "/" (urllib.remove_unsafe rest)).
Proof. exact (slice_from_append "https:" (String "/" (String "/" (urllib.remove_unsafe rest)))). Qed.

(** A network location without brackets and within ASCII is accepted. *)
Lemma netloc_plain_accepted (address_check : string → bool) (netloc : string) :
  urllib.mentions "[" netloc = false →
  urllib.mentions "]" netloc = false →
  urllib.isascii netloc = true →
  urllib.netloc_refused address_check netloc = false.
Proof. unfold urllib.netloc_refused. by intros -> -> ->. Qed.

Section urls.

Context `{!Collaborators}.

(** X3: [__is_absolute_url] tells a URL from a local path by the URL scheme
    alone, or raises.  Its only error is the [ValueError] of [urlparse],
    and only on a text with a network location that holds a bracket or a
    character outside ASCII.  A string without a colon, or one that
    starts with a slash, is never taken for a URL; one that starts with a
    dot is a local path; a string that starts with [http://] or
    [https://], or with a drive letter and a colon, is never taken for a
    local path; and [https://] followed by ASCII text without brackets is
    a URL. *)
Theorem absolute_url_recognition :
  (∀ url e, __is_absolute_url url = Err e →
     e = ValueError
     ∧ ∃ netloc, urllib.urlparse_netloc url = Some netloc
         ∧ (urllib.mentions "[" netloc = true ∨ urllib.mentions "]" netloc = true
            ∨ urllib.isascii netloc = false))
  ∧ (∀ url, urllib.find ":" url = None → __is_absolute_url url ≠ Ok true)
  ∧ (∀ rest, __is_absolute_url (String "/" rest) ≠ Ok true)
  ∧ (∀ rest, __is_absolute_url (String "." rest) = Ok false)
  ∧ (∀ rest, __is_absolute_url ("http://" +:+ rest) ≠ Ok false)
  ∧ (∀ rest, __is_absolute_url ("https://" +:+ rest) ≠ Ok false)
  ∧ (∀ rest, __is_absolute_url ("C:" +:+ rest) ≠ Ok false)
  ∧ (∀ rest, urllib.mentions "[" rest = false → urllib.mentions "]" rest = false →
             urllib.isascii rest = true →
             __is_absolute_url ("https://" +:+ rest) = Ok true).
Proof.
  assert (∀ url scheme, urllib.urlparse_scheme url = scheme →
            __is_absolute_url url ≠ Ok (String.eqb scheme "")) as Hscheme.
  { intros url scheme <-. unfold __is_absolute_url, urllib.urlparse.
    destruct (urllib.urlparse_netloc url) as [netloc|];
      [destruct (urllib.netloc_refused _ netloc); [done|]|];
      intros [= E]; by destruct (String.eqb _ _). }
  split; [|split; [|split; [|split; [|split; [|split; [|split]]]]]].
  - intros url e. unfold __is_absolute_url, urllib.urlparse.
    destruct (urllib.urlparse_netloc url) as [netloc|]; [|done].
    destruct (urllib.netloc_refused _ netloc) eqn:Hrefused; [|done].
    intros [= <-]. split; [done|]. exists netloc. split; [done|].
    destruct (urllib.mentions "[" netloc) eqn:Hopen; [by left|].
    destruct (urllib.mentions "]" netloc) eqn:Hclose; [by right; left|].
    destruct (urllib.isascii netloc) eqn:Hascii; [|by right; right].
    by rewrite netloc_plain_accepted in Hrefused.
  - intros url Hfind. apply (Hscheme url ""). unfold urllib.urlparse_scheme.
    apply find_lstrip_None, find_remove_unsafe_None in Hfind. by rewrite Hfind.
  - intros rest. apply (Hscheme _ ""). unfold urllib.urlparse_scheme.
    change (urllib.remove_unsafe (urllib.lstrip (String "/" rest)))
      with (String "/" (urllib.remove_unsafe rest)).
    change (urllib.find ":" (String "/" (urllib.remove_unsafe rest)))
      with (S <$> urllib.find ":" (urllib.remove_unsafe rest)).
    by destruct (urllib.find ":" (urllib.remove_unsafe rest)).
  - intros rest.
    unfold __is_absolute_url, urllib.urlparse, urllib.urlparse_netloc,
      urllib.urlparse_rest, urllib.urlparse_scheme.
    change (urllib.remove_unsafe (urllib.lstrip (String "." rest)))
      with (String "." (urllib.remove_unsafe rest)).
    change (urllib.find ":" (String "." (urllib.remove_unsafe rest)))
      with (S <$> urllib.find ":" (urllib.remove_unsafe rest)).
    destruct (urllib.find ":" (urllib.remove_unsafe rest)) as [i|]; simpl;
      by destruct (urllib.remove_unsafe rest) as [|c1 r].
  - intros rest. by apply (Hscheme _ "http").
  - intros rest. by apply (Hscheme _ "https").
  - intros rest. by apply (Hscheme _ "c").
  - intros rest Hopen Hclose Hascii.
    unfold __is_absolute_url, urllib.urlparse.
    change (urllib.urlparse_scheme ("https://" +:+ rest)) with "https".
    unfold urllib.urlparse_netloc. rewrite urlparse_rest_https.
    change (Ascii.eqb "/" "/" && Ascii.eqb "/" "/") with true. cbv iota.
    rewrite netloc_plain_accepted; [done|..].
    + destruct (urllib.mentions "[" (urllib.take_until _ _)) eqn:E; [|done].
      apply mentions_take_until, mentions_remove_unsafe in E. congruence.
    + destruct (urllib.mentions "]" (urllib.take_until _ _)) eqn:E; [|done].
      apply mentions_take_until, mentions_remove_unsafe in E. congruence.
    + by apply isascii_take_until, isascii_remove_unsafe.
Qed.

End urls.

(** ** Creating and copying files: the edges *)

Lemma prefix_removelast (p k : list string) :
  p `prefix_of` k → p ≠ k → p `prefix_of` removelast k.
Proof.
  intros [r ->] Hne. destruct r as [|x r _] using rev_ind.
  - by rewrite app_nil_r in Hne.
  - rewrite app_assoc, removelast_last. by apply prefix_app_r.
Qed.

Lemma no_file_above_free (fs : filesystem) (k : list string) :
  k ≠ [] →
  no_file_above fs k = true →
  ∀ p c, p `prefix_of` removelast k → p ≠ [] → os.stat fs ([] ++ p) ≠ Some (File c).
Proof.
  intros Hk Hfree p c [Hp Hne]%parents_prefix_removelast _ Hfile. simpl in Hfile.
  unfold no_file_above in Hfree. rewrite forallb_forall in Hfree.
  specialize (Hfree p). unfold is_file in Hfree. rewrite Hfile in Hfree.
  discriminate Hfree. apply list_elem_of_In, elem_of_parents. auto.
Qed.

(** What a successful [mkdir] of the parents of [k] does: it keeps what
    exists, changes nothing but the chain of directories down to the
    parent of [k], and leaves that chain in place. *)
Lemma mkdir_parents_effect (fs fs1 : filesystem) (k : list string) :
  os.mkdir_parents fs (removelast k) = Ok fs1 →
  (∀ k' n, os.stat fs k' = Some n → os.stat fs1 k' = Some n)
  ∧ (∀ k', ¬ k' `prefix_of` removelast k → os.stat fs1 k' = os.stat fs k')
  ∧ (∀ p, p `prefix_of` removelast k → os.stat fs1 p = Some Dir).
Proof.
  intros Hrun. unfold os.mkdir_parents in *.
  destruct (makedirs_Ok fs [] (removelast k)) as (fs' & Hrun' & Hdirs & Hkeep & Hout).
  { by eapply makedirs_Ok_inv. }
  assert (fs' = fs1) as -> by congruence. split; [done|]. split.
  - intros k' Hk'. apply Hout. intros p Hp ->. by apply Hk'.
  - intros p Hp. destruct p as [|x p]; [done|]. by apply (Hdirs (x :: p)).
Qed.

Lemma dirs_above_intro (fs : filesystem) (k : list string) :
  (∀ p, p `prefix_of` removelast k → os.stat fs p = Some Dir) →
  dirs_above fs k = true.
Proof.
  intros Hdirs. unfold dirs_above. apply forallb_forall.
  intros p [Hp Hne]%list_elem_of_In%elem_of_parents.
  unfold os.is_dir. by rewrite Hdirs by (by apply prefix_removelast).
Qed.


Lemma world_eta (w : world) : mkWorld (fs w) (cwd w) (log w) = w.
Proof. by destruct w. Qed.

Lemma Path_write_text_Err (p : PurePath) (w : world) (content : string) (e : exn) :
  resolved p →
  os.write_file (fs w) (tail p) content = Err e →
  Path_write_text p content w = (Err e, w).
Proof.
  intros Hp Hrun. unfold Path_write_text, bind, key, update_fs.
  rewrite path_key_resolved by done. simpl. by rewrite Hrun.
Qed.

Lemma shutil_copy_Err (src dst : PurePath) (w : world) (e : exn) :
  resolved src → resolved dst →
  os.shutil_copy (fs w) (tail src) (tail dst) = Err e →
  shutil_copy src dst w = (Err e, w).
Proof.
  intros Hs Hd Hrun. unfold shutil_copy, bind, key, update_fs.
  rewrite !path_key_resolved by done. simpl. by rewrite Hrun.
Qed.

(** X4: [__create_file] on a destination that is a directory: [write_text]
    raises [IsADirectoryError]; nothing is written and nothing is
    logged. *)
Theorem create_file_on_directory (dst : PurePath) (content : string) (w : world) :
  resolved dst →
  os.is_dir (fs w) (tail dst) = true →
  __create_file dst content w = (Err IsADirectoryError, w).
Proof.
  intros Hdst Hdir. unfold __create_file.
  erewrite bind_Ok by (by apply Path_exists_run).
  unfold os.is_dir in Hdir. unfold os.exists_.
  destruct (os.stat (fs w) (tail dst)) as [[|]|] eqn:Hstat; try done.
  erewrite bind_Err; [reflexivity|]. apply Path_write_text_Err; [done|].
  unfold os.write_file. by rewrite Hstat.
Qed.

Lemma create_file_on_directory_witness :
  __create_file (mkPath "/" ["docs"; "slides"]) "<html>" sample_world
  = (Err IsADirectoryError, sample_world).
Proof.
  apply create_file_on_directory; [split; [reflexivity|compute_done]|reflexivity].
Defined.

(** X5: [__copy_file] onto a destination that is a directory: the file is
    stored inside the directory under the base name of the source, the
    directory stays, and the record names the directory and says
    [Overwritten]. *)
Theorem copy_file_into_directory (src dst : PurePath) (content : string) (w : world) :
  resolved src → resolved dst →
  os.read_file (fs w) (tail src) = Ok content →
  os.is_dir (fs w) (tail dst) = true →
  dirs_above (fs w) (tail dst) = true →
  let target := tail dst ++ [pathlib.name src] in
  os.is_dir (fs w) target = false →
  tail src ≠ target →
  __copy_file src dst w
  = (Ok tt,
     mkWorld (<[target := File content]> (fs w)) (cwd w)
       (log w ++ [(INFO, "Overwritten file " +:+ quoted (pathlib.str src)
                         +:+ " to " +:+ quoted (pathlib.str dst))])).
Proof.
  intros Hsrc Hdst Hcontent Hdir Hdirs target Htarget Hne.
  destruct (mkdir_parents_present _ _ Hdirs) as [Hmk _].
  assert (os.shutil_copy (fs w) (tail src) (tail dst)
          = Ok (<[target := File content]> (fs w))) as Hcopy.
  { unfold os.shutil_copy. rewrite Hdir. fold (pathlib.name src). fold target.
    rewrite bool_decide_false, andb_false_r by done. rewrite Hcontent.
    unfold os.write_file. unfold os.is_dir in Htarget, Hdir.
    assert (os.stat (fs w) (removelast target) = Some Dir) as ->.
    { unfold target. rewrite removelast_last.
      by destruct (os.stat (fs w) (tail dst)) as [[|]|]. }
    by destruct (os.stat (fs w) target) as [[|]|]. }
  unfold __copy_file.
  erewrite bind_Ok by (by apply Path_exists_run).
  erewrite bind_Ok by (by apply Path_mkdir_parents_run).
  erewrite bind_Ok by (by apply shutil_copy_run).
  erewrite bind_Ok by (by apply Path_absolute_run).
  erewrite bind_Ok by (by apply Path_absolute_run).
  unfold os.exists_, os.is_dir in *.
  by destruct (os.stat (fs w) (tail dst)) as [[|]|].
Qed.

Lemma copy_file_into_directory_witness :
  __copy_file (mkPath "/" ["etc"; "logo.png"]) (mkPath "/" ["docs"; "slides"; "img"])
    sample_world
  = (Ok tt,
     mkWorld (<[["docs"; "slides"; "img"; "logo.png"] := File "logo"]> sample_fs)
       (mkPath "/" ["app"])
       [(INFO, "Overwritten file " +:+ quoted "/etc/logo.png"
               +:+ " to " +:+ quoted "/docs/slides/img")]).
Proof.
  apply (copy_file_into_directory (mkPath "/" ["etc"; "logo.png"])
           (mkPath "/" ["docs"; "slides"; "img"]) "logo" sample_world).
  - split; [reflexivity|compute_done].
  - split; [reflexivity|compute_done].
  - reflexivity.
  - reflexivity.
  - reflexivity.
  - reflexivity.
  - discriminate.
Defined.

(** X6: [__copy_file] of a file onto itself: [shutil.copy] raises
    [SameFileError]; the file is left as it is and nothing is logged. *)
Theorem copy_file_onto_itself (p : PurePath) (w : world) :
  resolved p →
  is_file (fs w) (tail p) = true →
  dirs_above (fs w) (tail p) = true →
  __copy_file p p w = (Err SameFileError, w).
Proof.
  intros Hp Hfile Hdirs.
  destruct (mkdir_parents_present _ _ Hdirs) as [Hmk _].
  unfold __copy_file.
  erewrite bind_Ok by (by apply Path_exists_run).
  erewrite bind_Ok by (by apply Path_mkdir_parents_run).
  rewrite world_eta.
  erewrite bind_Err; [reflexivity|]. apply shutil_copy_Err; [done..|].
  unfold os.shutil_copy, os.is_dir, os.exists_. unfold is_file in Hfile.
  destruct (os.stat (fs w) (tail p)) as [[|]|]; try done.
  by rewrite bool_decide_true.
Qed.

Lemma copy_file_onto_itself_witness :
  __copy_file (mkPath "/" ["app"; "themes"; "dark.css"])
    (mkPath "/" ["app"; "themes"; "dark.css"]) sample_world
  = (Err SameFileError, sample_world).
Proof.
  apply copy_file_onto_itself; [split; [reflexivity|compute_done]|reflexivity..].
Defined.

(** X7: [__copy_file] of a source that does not exist (below directories
    that do, or that are missing too): the parent directories of the
    destination are made first and stay behind, then
    [shutil.copy] raises [FileNotFoundError]; the destination is not
    created and nothing is logged. *)
Theorem copy_file_missing_source (src dst : PurePath) (w : world) :
  resolved src → resolved dst →
  os.exists_ (fs w) (tail src) = false →
  no_file_above (fs w) (tail src) = true →
  os.exists_ (fs w) (tail dst) = false →
  no_file_above (fs w) (tail dst) = true →
  ¬ tail src `prefix_of` tail dst →
  ∃ fs1,
    __copy_file src dst w = (Err FileNotFoundError, mkWorld fs1 (cwd w) (log w))
    ∧ dirs_above fs1 (tail dst) = true
    ∧ os.exists_ fs1 (tail dst) = false
    ∧ (∀ k n, os.stat (fs w) k = Some n → os.stat fs1 k = Some n).
Proof.
  intros Hsrc Hdst Hmissing _ Hfresh Hfree Hnot.
  assert (tail dst ≠ []) as Hnil by (intros E; by rewrite E in Hfresh).
  destruct (makedirs_Ok (fs w) [] (removelast (tail dst))) as (fs1 & Hmk & _).
  { by apply no_file_above_free. }
  destruct (mkdir_parents_effect _ _ _ Hmk) as (Hkeep & Hout & Hchain).
  assert (os.stat fs1 (tail src) = None) as Hs1.
  { rewrite Hout.
    - unfold os.exists_ in Hmissing. by destruct (os.stat (fs w) (tail src)).
    - by intros [Hp _]%parents_prefix_removelast. }
  assert (os.stat fs1 (tail dst) = None) as Hd1.
  { rewrite Hout.
    - unfold os.exists_ in Hfresh. by destruct (os.stat (fs w) (tail dst)).
    - intros [_ Hne]%parents_prefix_removelast. by apply Hne. }
  exists fs1. split; [|split; [by apply dirs_above_intro|split; [|done]]].
  - unfold __copy_file.
    erewrite bind_Ok by (by apply Path_exists_run).
    erewrite bind_Ok by (by apply Path_mkdir_parents_run).
    erewrite bind_Err; [reflexivity|]. apply shutil_copy_Err; [done..|]. cbn [fs].
    unfold os.shutil_copy, os.is_dir, os.exists_, os.read_file. by rewrite Hd1, Hs1.
  - unfold os.exists_. by rewrite Hd1.
Qed.

Lemma copy_file_missing_source_witness :
  ∃ fs1,
    __copy_file (mkPath "/" ["docs"; "slides"; "img"; "dog.png"])
      (mkPath "/" ["site"; "slides"; "img"; "dog.png"]) sample_world
    = (Err FileNotFoundError, mkWorld fs1 (mkPath "/" ["app"]) [])
    ∧ os.is_dir fs1 ["site"; "slides"; "img"] = true.
Proof.
  destruct (copy_file_missing_source (mkPath "/" ["docs"; "slides"; "img"; "dog.png"])
              (mkPath "/" ["site"; "slides"; "img"; "dog.png"]) sample_world)
    as (fs1 & Hrun & Hdirs & _).
  - split; [reflexivity|compute_done].
  - split; [reflexivity|compute_done].
  - reflexivity.
  - reflexivity.
  - reflexivity.
  - reflexivity.
  - compute_done.
  - exists fs1. split; [exact Hrun|].
    unfold dirs_above in Hdirs. rewrite forallb_forall in Hdirs.
    apply Hdirs. compute_done.
Defined.

(** ** Creating and copying files: repetition and frame *)

Lemma removelast_neq (k : list string) : k ≠ [] → removelast k ≠ k.
Proof.
  intros Hk E. apply length_removelast_nonempty in Hk. rewrite E in Hk. lia.
Qed.

(** What a successful [__create_file] has done, step by step. *)
Lemma create_file_Ok_effect (dst : PurePath) (content : string) (w w1 : world) :
  resolved dst →
  __create_file dst content w = (Ok tt, w1) →
  ∃ fs1 record,
    (fs1 = fs w ∨ os.mkdir_parents (fs w) (removelast (tail dst)) = Ok fs1)
    ∧ os.write_file fs1 (tail dst) content = Ok (fs w1)
    ∧ cwd w1 = cwd w
    ∧ log w1 = log w ++ [record].
Proof.
  intros Hdst Hrun. unfold __create_file in Hrun.
  erewrite bind_Ok in Hrun by (by apply Path_exists_run).
  destruct (os.exists_ (fs w) (tail dst)).
  - apply bind_Ok_inv in Hrun as ([] & w2 & Hw & [= <-]).
    unfold Path_write_text in Hw. erewrite bind_Ok in Hw by reflexivity.
    rewrite path_key_resolved in Hw by done.
    apply update_fs_Ok_inv in Hw as (fs2 & Hw & ->).
    exists (fs w). eexists. split; [by left|]. by cbn.
  - apply bind_Ok_inv in Hrun as ([] & w2 & Hmk & Hrun).
    unfold Path_mkdir_parents in Hmk. erewrite bind_Ok in Hmk by reflexivity.
    rewrite path_key_resolved in Hmk by (by apply resolved_parent).
    apply update_fs_Ok_inv in Hmk as (fs1 & Hmk & ->).
    apply bind_Ok_inv in Hrun as ([] & w3 & Hw & [= <-]).
    unfold Path_write_text in Hw. erewrite bind_Ok in Hw by reflexivity.
    rewrite path_key_resolved in Hw by done.
    apply update_fs_Ok_inv in Hw as (fs2 & Hw & ->).
    exists fs1. eexists. split; [by right|]. by cbn.
Qed.

(** What a successful [__copy_file] of a regular file onto a destination
    that is not a directory has done, step by step. *)
Lemma copy_file_Ok_effect (src dst : PurePath) (content : string) (w w1 : world) :
  resolved src → resolved dst →
  os.read_file (fs w) (tail src) = Ok content →
  os.is_dir (fs w) (tail dst) = false →
  __copy_file src dst w = (Ok tt, w1) →
  ∃ fs1 record,
    os.mkdir_parents (fs w) (removelast (tail dst)) = Ok fs1
    ∧ os.write_file fs1 (tail dst) content = Ok (fs w1)
    ∧ tail src ≠ tail dst
    ∧ cwd w1 = cwd w
    ∧ log w1 = log w ++ [record].
Proof.
  intros Hsrc Hdst Hcontent Hdir Hrun. unfold __copy_file in Hrun.
  assert (tail dst ≠ []) as Hnil by (intros E; by rewrite E in Hdir).
  erewrite bind_Ok in Hrun by (by apply Path_exists_run).
  apply bind_Ok_inv in Hrun as ([] & w2 & Hmk & Hrun).
  unfold Path_mkdir_parents in Hmk. erewrite bind_Ok in Hmk by reflexivity.
  rewrite path_key_resolved in Hmk by (by apply resolved_parent).
  apply update_fs_Ok_inv in Hmk as (fs1 & Hmk & ->).
  destruct (mkdir_parents_effect _ _ _ Hmk) as (Hkeep & Hout & Hchain).
  apply bind_Ok_inv in Hrun as ([] & w3 & Hcopy & Hrun).
  unfold shutil_copy in Hcopy. do 2 erewrite bind_Ok in Hcopy by reflexivity.
  rewrite !path_key_resolved in Hcopy by done.
  apply update_fs_Ok_inv in Hcopy as (fs2 & Hcopy & ->). cbn [fs cwd log] in *.
  apply read_file_stat in Hcontent as Hstat. apply Hkeep in Hstat.
  assert (os.is_dir fs1 (tail dst) = false) as Hdir1.
  { unfold os.is_dir in *. rewrite Hout; [done|].
    intros [_ Hne]%parents_prefix_removelast. by apply Hne. }
  unfold os.shutil_copy in Hcopy. rewrite Hdir1 in Hcopy.
  unfold os.exists_ in Hcopy. rewrite Hstat in Hcopy. cbn [andb] in Hcopy.
  case_bool_decide as Hsame; [done|].
  rewrite (proj2 (read_file_stat _ _ _) Hstat) in Hcopy.
  erewrite bind_Ok in Hrun by (by apply Path_absolute_run).
  erewrite bind_Ok in Hrun by (by apply Path_absolute_run).
  injection Hrun as <-. exists fs1. eexists. by cbn.
Qed.

(** X8: [__create_file] again on the path it has just created: the call
    succeeds, is logged as [Overwritten], and sets the entry to the new
    content and nothing else; with the same content the file system is
    unchanged. *)
Theorem create_file_again (dst : PurePath) (content content' : string) (w w1 : world) :
  resolved dst →
  __create_file dst content w = (Ok tt, w1) →
  __create_file dst content' w1
  = (Ok tt,
     mkWorld (<[tail dst := File content']> (fs w1)) (cwd w1)
       (log w1 ++ [(INFO, "Overwritten: " +:+ quoted (pathlib.str dst))]))
  ∧ <[tail dst := File content]> (fs w1) = fs w1.
Proof.
  intros Hdst Hrun.
  apply create_file_Ok_effect in Hrun as (fs1 & record & _ & Hw & _ & _); [|done].
  assert (os.stat fs1 (removelast (tail dst)) = Some Dir) as Hparent.
  { unfold os.write_file in Hw. destruct (os.stat fs1 (tail dst)) as [[|]|];
      destruct (os.stat fs1 (removelast (tail dst))) as [[|]|]; done. }
  apply write_file_Ok_inv in Hw as (Hnil & Hfs & Hread).
  apply read_file_stat in Hread as Hstat.
  split.
  - assert (os.write_file (fs w1) (tail dst) content'
            = Ok (<[tail dst := File content']> (fs w1))) as Hw.
    { unfold os.write_file. rewrite Hstat.
      rewrite Hfs at 1. rewrite stat_insert by done.
      rewrite decide_False by (by apply removelast_neq). by rewrite Hparent. }
    unfold __create_file.
    erewrite bind_Ok by (by apply Path_exists_run).
    unfold os.exists_. rewrite Hstat.
    erewrite bind_Ok by (by apply Path_write_text_run). reflexivity.
  - rewrite Hfs. apply insert_insert_eq.
Qed.

Lemma create_file_again_witness :
  let dst := mkPath "/" ["site"; "slides"; "a.html"] in
  let w1 := (__create_file dst "<html>" sample_world).2 in
  __create_file dst "<html>" w1
  = (Ok tt, mkWorld (fs w1) (cwd w1)
              (log w1 ++ [(INFO, "Overwritten: " +:+ quoted "/site/slides/a.html")])).
Proof.
  intros dst w1.
  destruct (create_file_again dst "<html>" "<html>" sample_world w1) as [Hrun Hsame].
  - split; [reflexivity|compute_done].
  - vm_compute. reflexivity.
  - rewrite Hrun. change (tail dst) with ["site"; "slides"; "a.html"] in *.
    by rewrite Hsame.
Defined.




(** X10: The frame of the two operations: when [__create_file], or
    [__copy_file] of a regular file onto a destination that is not a
    directory, succeeds, every entry that existed anywhere but at the
    destination is kept as it was (the source of a copy among them), the
    only entries that appear are the destination and directories above
    it, the working directory is the same and the log has grown by one
    record. *)
Theorem file_operations_frame (src dst : PurePath) (content : string) (w w1 : world) :
  resolved dst →
  __create_file dst content w = (Ok tt, w1)
  ∨ (resolved src ∧ os.read_file (fs w) (tail src) = Ok content
     ∧ os.is_dir (fs w) (tail dst) = false
     ∧ __copy_file src dst w = (Ok tt, w1)) →
  (∀ k n, os.stat (fs w) k = Some n → k ≠ tail dst → os.stat (fs w1) k = Some n)
  ∧ (∀ k, os.stat (fs w) k = None → os.stat (fs w1) k ≠ None → k `prefix_of` tail dst)
  ∧ (∀ k, os.stat (fs w) k = None → k ≠ tail dst → os.stat (fs w1) k ≠ None →
          os.stat (fs w1) k = Some Dir)
  ∧ os.read_file (fs w1) (tail dst) = Ok content
  ∧ cwd w1 = cwd w
  ∧ ∃ record, log w1 = log w ++ [record].
Proof.
  intros Hdst Hrun.
  assert (∃ fs1 record,
            (fs1 = fs w ∨ os.mkdir_parents (fs w) (removelast (tail dst)) = Ok fs1)
            ∧ os.write_file fs1 (tail dst) content = Ok (fs w1)
            ∧ cwd w1 = cwd w ∧ log w1 = log w ++ [record])
    as (fs1 & record & Hfs1 & Hw & Hcwd & Hlog).
  { destruct Hrun as [Hrun|(Hsrc & Hcontent & Hdir & Hrun)].
    - by apply create_file_Ok_effect.
    - apply (copy_file_Ok_effect _ _ content) in Hrun
        as (fs1 & record & Hmk & Hw & _ & Hcwd & Hlog); [|done..].
      exists fs1, record. auto. }
  apply write_file_Ok_inv in Hw as (Hnil & Hfs & Hread).
  assert ((∀ k n, os.stat (fs w) k = Some n → os.stat fs1 k = Some n)
          ∧ (∀ k, ¬ k `prefix_of` removelast (tail dst) → os.stat fs1 k = os.stat (fs w) k)
          ∧ (∀ k, os.stat (fs w) k = None → os.stat fs1 k ≠ None → os.stat fs1 k = Some Dir))
    as (Hkeep & Hout & Hnew).
  { destruct Hfs1 as [->|Hmk]; [done|].
    destruct (mkdir_parents_effect _ _ _ Hmk) as (Hkeep & Hout & Hchain).
    split; [done|]. split; [done|]. intros k Hk Hk1.
    destruct (decide (k `prefix_of` removelast (tail dst))) as [Hp|Hp]; [by apply Hchain|].
    rewrite Hout in Hk1 by done. congruence. }
  split; [|split; [|split; [|split; [done|split; [done|by exists record]]]]].
  - intros k n Hk Hne. rewrite Hfs, stat_insert by done. rewrite decide_False by done.
    by apply Hkeep.
  - intros k Hk Hk1. rewrite Hfs, stat_insert in Hk1 by done.
    destruct (decide (k = tail dst)) as [->|Hne]; [done|].
    destruct (decide (k `prefix_of` removelast (tail dst))) as [Hp|Hp].
    + by apply parents_prefix_removelast in Hp as [Hp _].
    + rewrite Hout in Hk1 by done. congruence.
  - intros k Hk Hne Hk1. rewrite Hfs, stat_insert in Hk1 |- * by done.
    rewrite decide_False in Hk1 |- * by done. by apply Hnew.
Qed.

Lemma file_operations_frame_witness :
  let dst := mkPath "/" ["site"; "slides"; "a.html"] in
  let w1 := (__create_file dst "<html>" sample_world).2 in
  os.read_file (fs w1) ["site"; "slides"; "a.html"] = Ok "<html>"
  ∧ os.read_file (fs w1) ["docs"; "slides"; "a.md"] = Ok "title: Intro;./img/cat.png"
  ∧ length (log w1) = 1.
Proof.
  intros dst w1.
  destruct (file_operations_frame dst dst "<html>" sample_world w1)
    as (Hkeep & _ & _ & Hread & _ & record & Hlog).
  - split; [reflexivity|compute_done].
  - left. vm_compute. reflexivity.
  - split; [exact Hread|]. split.
    + apply read_file_stat, Hkeep; [reflexivity|discriminate].
    + rewrite Hlog. reflexivity.
Defined.

(** ** Themes, images and output paths *)


Section documents.

Context `{!Collaborators}.

(** X11: A local theme that [__copy_theme] has copied: the theme reference it
    returns is a relative path, and following that path from the
    directory of the file that uses the theme ends at the copied file,
    which holds the content of the theme. *)
Theorem theme_reference_reaches_copy (self : MarkupGenerator)
    (file_using_theme_path : PurePath) (theme : string) (p : PurePath)
    (content : string) (r : theme_ref) (w w' : world) :
  __is_absolute_url theme = Ok false →
  (Path_resolve (pathlib.Path theme) true w).1 = Ok p →
  resolved p →
  resolved (theme_output_path_of self p) →
  os.read_file (fs w) (tail p) = Ok content →
  os.is_dir (fs w) (tail (theme_output_path_of self p)) = false →
  __copy_theme self file_using_theme_path (PyStr theme) w = (Ok r, w') →
  ∃ rel,
    r = ThemePath rel
    ∧ anchor rel = ""
    ∧ follow (pathlib.parent file_using_theme_path) rel = theme_output_path_of self p
    ∧ os.read_file (fs w') (tail (theme_output_path_of self p)) = Ok content.
Proof.
  intros Hurl Hp Hres Hout Hcontent Hdir Hrun.
  destruct (copy_theme_local_inv _ _ _ _ _ _ _ _ Hurl Hp Hres Hout Hcontent Hdir Hrun)
    as (Hread & _ & _).
  apply Path_resolve_fst in Hp.
  unfold __copy_theme in Hrun. rewrite Hurl in Hrun.
  erewrite bind_Ok in Hrun by reflexivity. cbv beta iota in Hrun.
  erewrite bind_Ok in Hrun by exact Hp.
  erewrite bind_Ok in Hrun by reflexivity.
  apply bind_Ok_inv in Hrun as (rel0 & w2 & _ & Hrun).
  apply bind_Ok_inv in Hrun as (rel & w3 & [Hrel _]%lift_Ok_inv & [= <- _]).
  exists rel. split; [done|].
  destruct Hout as [_ Hdd].
  destruct (relative_to_walk_up_sound _ _ _ Hdd Hrel) as [Hanchor Hfollow]. done.
Qed.


(** X13: An image reference that resolves to a regular file below the
    Markdown root: when [copy_image] returns, the file has been copied to
    the same relative position below the output directory. *)
Theorem image_below_root_mirrored (self : MarkupGenerator) (md_file image : PurePath)
    (location content : string) (w w' : world) :
  let reference := pathlib.joinpath (pathlib.parent md_file) (pathlib.Path location) in
  let rest := drop (length (tail (md_root_path self))) (tail image) in
  pathlib.is_absolute reference = true →
  (Path_resolve reference true w).1 = Ok image →
  pathlib.is_relative_to image (md_root_path self) = true →
  os.read_file (fs w) (tail image) = Ok content →
  resolved (output_directory_path self) →
  os.is_dir (fs w) (tail (output_directory_path self) ++ rest) = false →
  copy_image self md_file location w = (Ok tt, w') →
  tail image = tail (md_root_path self) ++ rest
  ∧ os.read_file (fs w') (tail (output_directory_path self) ++ rest) = Ok content.
Proof.
  intros reference rest Habs Himage%Path_resolve_fst Hbelow Hcontent [Hout Hdd] Hdir Hrun.
  destruct (Path_resolve_idem _ _ _ Habs Himage) as [Hagain [Hiabs Hidd]].
  assert (∃ rel, pathlib.relative_to image (md_root_path self) false = Ok rel)
    as [rel Hrel].
  { unfold pathlib.is_relative_to in Hbelow. unfold pathlib.relative_to.
    apply andb_true_iff in Hbelow as [Ha%bool_decide_eq_true Hs%bool_decide_eq_true].
    rewrite decide_True by done.
    destruct (pathlib.strip_common (tail image) (tail (md_root_path self))) as [ri rr].
    simpl in Hs. subst rr. by eexists. }
  destruct (relative_to_below_inv _ _ _ Hrel) as (Ha & Ht & Hr).
  assert (rest = tail rel) as Hrest.
  { unfold rest. rewrite Ht. by rewrite drop_app_length. }
  rewrite Hrest in *. split; [done|].
  set (dst := pathlib.joinpath (output_directory_path self) rel).
  assert (dst = mkPath (anchor (output_directory_path self))
                  (tail (output_directory_path self) ++ tail rel)) as Hdst.
  { unfold dst, pathlib.joinpath, pathlib.is_absolute. by rewrite Hr. }
  assert (resolved dst) as Hres.
  { rewrite Hdst. split; [done|]. cbn [tail]. rewrite elem_of_app. intros [?|Hin]; [done|].
    apply Hidd. rewrite Ht. apply elem_of_app. by right. }
  unfold copy_image in Hrun. fold reference in Hrun.
  erewrite bind_Ok in Hrun by exact Himage.
  apply bind_Ok_inv in Hrun as (copied & w1 & Hcopy & [= <-]).
  unfold __copy_to_output_relative_to_md_root in Hcopy.
  erewrite bind_Ok in Hcopy by exact Hagain.
  rewrite Hbelow in Hcopy. cbn [negb] in Hcopy.
  erewrite bind_Ok in Hcopy by (rewrite Hrel; reflexivity).
  apply bind_Ok_inv in Hcopy as ([] & w2 & Hcopy & [= _ <-]).
  fold dst in Hcopy.
  rewrite (copy_regular_file _ _ _ content) in Hcopy by done.
  apply (copy_file_Ok_inv _ _ _ _ content) in Hcopy as (Hread & _ & _);
    [by rewrite Hdst in Hread|done..|by rewrite Hdst].
Qed.

(** X14: The output path of a Markdown file other than the root itself: it
    lies below the output directory, in the same relative directory as
    the file below the root, under the stem of the file name followed by
    [.html]; and the location [__process_markdown_directory] puts in the
    index entry is computed without error. *)
Theorem output_path_mirrors_source (self : MarkupGenerator) (md_file out : PurePath) :
  output_markup_path_of self md_file = Ok out →
  md_file ≠ md_root_path self →
  ∃ dir nm,
    tail md_file = tail (md_root_path self) ++ dir ++ [nm]
    ∧ out = mkPath (anchor (output_directory_path self))
              (tail (output_directory_path self) ++ dir
               ++ [pathlib.stem_of_name nm +:+ ".html"])
    ∧ pathlib.relative_to out (output_directory_path self) false
      = Ok (mkPath "" (dir ++ [pathlib.stem_of_name nm +:+ ".html"])).
Proof.
  intros (rest & -> & Hne & ->)%output_markup_path_of_inv Hroot.
  destruct rest as [|nm dir _] using rev_ind.
  { exfalso. apply Hroot. rewrite app_nil_r. by destruct (md_root_path self). }
  exists dir, nm. split; [done|].
  rewrite !app_assoc, removelast_last, last_last. rewrite <- !app_assoc.
  split; [done|]. apply relative_to_below.
Qed.


End documents.
Lemma theme_reference_reaches_copy_witness :
  let self := sample_generator sample_config in
  let file := mkPath "/" ["site"; "slides"; "sub"; "b.html"] in
  let run := @__copy_theme sample_collaborators self file (PyStr "themes/dark.css")
               sample_world in
  ∃ rel,
    run.1 = Ok (ThemePath rel)
    ∧ follow (pathlib.parent file) rel = mkPath "/" ["site"; "assets"; "dark.css"]
    ∧ os.read_file (fs run.2) ["site"; "assets"; "dark.css"] = Ok "body { color: white }".
Proof.
  intros self file run.
  destruct (@theme_reference_reaches_copy sample_collaborators self file "themes/dark.css"
              (mkPath "/" ["app"; "themes"; "dark.css"]) "body { color: white }"
              (ThemePath (mkPath "" [".."; ".."; "assets"; "dark.css"]))
              sample_world run.2) as (rel & Hr & _ & Hfollow & Hread).
  - reflexivity.
  - reflexivity.
  - split; [reflexivity|compute_done].
  - split; [reflexivity|compute_done].
  - reflexivity.
  - reflexivity.
  - vm_compute. reflexivity.
  - exists rel. split; [|done]. rewrite <- Hr. vm_compute. reflexivity.
Defined.


Lemma image_below_root_mirrored_witness :
  let self := sample_generator sample_config in
  let md_file := mkPath "/" ["docs"; "slides"; "a.md"] in
  let w' := (@copy_image sample_collaborators self md_file "./img/cat.png" sample_world).2 in
  os.read_file (fs w') ["site"; "slides"; "img"; "cat.png"] = Ok "meow".
Proof.
  intros self md_file w'.
  eapply proj2, (@image_below_root_mirrored sample_collaborators self md_file
                   (mkPath "/" ["docs"; "slides"; "img"; "cat.png"]) "./img/cat.png" "meow"
                   sample_world w').
  - reflexivity.
  - reflexivity.
  - reflexivity.
  - reflexivity.
  - split; [reflexivity|compute_done].
  - reflexivity.
  - vm_compute. reflexivity.
Defined.

Lemma output_path_mirrors_source_witness :
  ∃ dir nm,
    ["docs"; "slides"; "sub"; "b.md"] = ["docs"] ++ dir ++ [nm]
    ∧ mkPath "/" ["site"; "slides"; "sub"; "b.html"]
      = mkPath "/" (["site"] ++ dir ++ [pathlib.stem_of_name nm +:+ ".html"])
    ∧ pathlib.relative_to (mkPath "/" ["site"; "slides"; "sub"; "b.html"])
        (mkPath "/" ["site"]) false
      = Ok (mkPath "" (dir ++ [pathlib.stem_of_name nm +:+ ".html"])).
Proof.
  apply (output_path_mirrors_source (sample_generator sample_config)
           (mkPath "/" ["docs"; "slides"; "sub"; "b.md"])
           (mkPath "/" ["site"; "slides"; "sub"; "b.html"])).
  - reflexivity.
  - discriminate.
Defined.


(** ** The output directory *)


Lemma makedirs_app_Ok (fs fs' : filesystem) (above s1 s2 : list string) :
  os.makedirs fs above s1 = Ok fs' →
  os.makedirs fs above (s1 ++ s2) = os.makedirs fs' (above ++ s1) s2.
Proof.
  revert fs above. induction s1 as [|seg s1 IH]; intros fs above; simpl.
  - intros [= <-]. by rewrite app_nil_r.
  - replace (above ++ seg :: s1) with ((above ++ [seg]) ++ s1) by (by rewrite <- app_assoc).
    destruct (os.stat fs (above ++ [seg])) as [[|]|]; [done|apply IH..].
Qed.

(** [mkdir(parents=True, exist_ok=True)] on a path whose parents are all
    there: a missing path is created, a regular file in its place is a
    [FileExistsError]. *)
Lemma mkdir_leaf (fs : filesystem) (k : list string) :
  k ≠ [] →
  dirs_above fs k = true →
  os.mkdir_parents fs k
  = match os.stat fs k with
    | Some Dir => Ok fs
    | Some (File _) => Err FileExistsError
    | None => Ok (<[k := Dir]> fs)
    end.
Proof.
  intros Hk Hdirs. destruct (mkdir_parents_present _ _ Hdirs) as [Hmk _].
  unfold os.mkdir_parents in *.
  rewrite (app_removelast_last "" Hk) at 1.
  rewrite (makedirs_app_Ok _ _ _ _ _ Hmk). simpl.
  rewrite <- (app_removelast_last "" Hk).
  destruct k; [done|]. by destruct (os.stat fs _) as [[|]|].
Qed.


Section output_directory.

Context `{!Collaborators} `{!Runtime}.


(** X17: [create_output_directory] when a regular file stands at the output
    path (below existing directories): [mkdir] raises [FileExistsError];
    nothing is created, copied or logged. *)
Theorem create_output_directory_on_file (self : MarkupGenerator) (w : world) :
  resolved (output_directory_path self) →
  dirs_above (fs w) (tail (output_directory_path self)) = true →
  is_file (fs w) (tail (output_directory_path self)) = true →
  create_output_directory self w = (Err FileExistsError, w).
Proof.
  intros Hout Hdirs Hfile. unfold create_output_directory.
  erewrite bind_Err; [reflexivity|].
  unfold Path_mkdir_parents. erewrite bind_Ok by reflexivity.
  rewrite path_key_resolved by done. unfold update_fs.
  unfold is_file in Hfile.
  destruct (os.stat (fs w) (tail (output_directory_path self))) as [[c|]|] eqn:Hstat;
    try done.
  rewrite mkdir_leaf; [by rewrite Hstat|by intros E; rewrite E in Hstat|done].
Qed.



End output_directory.


Lemma create_output_directory_on_file_witness :
  @create_output_directory sample_collaborators (sample_generator_at ["etc"; "logo.png"])
    sample_world
  = (Err FileExistsError, sample_world).
Proof.
  apply (@create_output_directory_on_file sample_collaborators).
  - split; [reflexivity|compute_done].
  - reflexivity.
  - reflexivity.
Defined.



(** ** The index and repeated references *)


Lemma with_suffix_snoc (a : string) (t : list string) (nm sfx : string) :
  nm ≠ "" →
  pathlib.with_suffix (mkPath a (t ++ [nm])) sfx
  = Ok (mkPath a (t ++ [pathlib.stem_of_name nm +:+ sfx])).
Proof.
  intros Hnm. destruct (pathlib.with_suffix (mkPath a (t ++ [nm])) sfx) as [o|e] eqn:Hw.
  - apply with_suffix_Ok in Hw as [_ ->].
    unfold pathlib.with_name, pathlib.stem, pathlib.name. cbn [tail anchor].
    by rewrite last_last, removelast_last.
  - unfold pathlib.with_suffix, pathlib.name in Hw. cbn [tail] in Hw.
    rewrite last_last in Hw. apply String.eqb_neq in Hnm. by rewrite Hnm in Hw.
Qed.

Section index_and_duplicates.

Context `{!Collaborators}.

(** X20: A Markdown root without Markdown files still gets its index: with
    no index theme configured, the index template is rendered with an
    empty list of slideshows and written to [index.html] in the output
    directory. *)
Theorem directory_without_files (self : MarkupGenerator) (w : world)
    (index_template : template) (content : string) :
  let w0 := mkWorld (fs w) (cwd w) (log w ++ [(INFO, "Generating index")]) in
  glob_md (fs w) (md_root_path self) = [] →
  truthy (Config_get (config self) ["index"; "theme"]) = false →
  get_template w0 (Config_get (config self) ["index"; "template"]) = Ok index_template →
  render_index index_template
    (mkIndexContext (Config_get (config self) ["index"; "title"]) None [] datetime_now)
  = Ok content →
  __process_markdown_directory self w
  = __create_file
      (mkPath (anchor (output_directory_path self))
         (tail (output_directory_path self) ++ ["index.html"]))
      content w0.
Proof.
  intros w0 Hglob Htheme Htemplate Hrender. unfold __process_markdown_directory.
  erewrite bind_Ok by reflexivity. rewrite Hglob.
  erewrite bind_Ok by reflexivity.
  erewrite bind_Ok by reflexivity. fold w0.
  unfold configured_theme. rewrite Htheme.
  erewrite bind_Ok by reflexivity.
  erewrite bind_Ok by (by rewrite Htemplate).
  rewrite Hrender. by erewrite bind_Ok by reflexivity.
Qed.

(** X21: A file [index.md] directly below the Markdown root has the path of
    the index page as its output path; and when
    [__process_markdown_directory] returns, [index.html] in the output
    directory holds the rendered index, whatever was written there
    before. *)
Theorem index_md_shares_the_index_path (self : MarkupGenerator) (w w' : world) :
  let index_path :=
    pathlib.joinpath (output_directory_path self) (pathlib.Path "index.html") in
  output_markup_path_of self
    (mkPath (anchor (md_root_path self)) (tail (md_root_path self) ++ ["index.md"]))
  = Ok index_path
  ∧ (__process_markdown_directory self w = (Ok tt, w') →
     ∃ index_template context content,
       render_index index_template context = Ok content
       ∧ os.read_file (fs w') (os.path_key (cwd w') index_path) = Ok content).
Proof.
  intros index_path. split.
  - unfold output_markup_path_of. rewrite relative_to_below.
    change (pathlib.joinpath (output_directory_path self) (mkPath "" ["index.md"]))
      with (mkPath (anchor (output_directory_path self))
              (tail (output_directory_path self) ++ ["index.md"])).
    by rewrite with_suffix_snoc.
  - intros Hrun. unfold __process_markdown_directory in Hrun.
    apply bind_Ok_inv in Hrun as (md_files & w1 & _ & Hrun).
    apply bind_Ok_inv in Hrun as (entries & w2 & _ & Hrun).
    apply bind_Ok_inv in Hrun as ([] & w3 & _ & Hrun).
    apply bind_Ok_inv in Hrun as (theme & w4 & _ & Hrun).
    apply bind_Ok_inv in Hrun as (tpl & w5 & _ & Hrun).
    apply bind_Ok_inv in Hrun as (content & w6 & [Hrender _]%lift_Ok_inv & Hrun).
    apply create_file_Ok_inv in Hrun as [Hread _].
    eexists tpl, _, content. split; [exact Hrender|exact Hread].
Qed.


End index_and_duplicates.

Lemma directory_without_files_witness :
  let self := mkGenerator sample_config_absent (mkPath "/" ["etc"]) (mkPath "/" ["site"])
                (mkPath "/" ["app"; "assets"]) (mkPath "/" ["app"; "assets"; "reveal.js-master"])
                (mkPath "/" ["site"; "assets"]) (mkPath "/" ["site"; "assets"; "reveal-js"]) in
  @__process_markdown_directory sample_collaborators self sample_world
  = __create_file (mkPath "/" ["site"; "index.html"]) "index.html.jinja"
      (mkWorld sample_fs (mkPath "/" ["app"]) [(INFO, "Generating index")]).
Proof.
  intros self.
  apply (@directory_without_files sample_collaborators self sample_world
           "index.html.jinja" "index.html.jinja").
  - reflexivity.
  - reflexivity.
  - reflexivity.
  - reflexivity.
Defined.


Lemma index_md_shares_the_index_path_witness :
  let self := sample_generator sample_config in
  let w' := (@__process_markdown_directory sample_collaborators self sample_world).2 in
  ∃ index_template context content,
    @render_index sample_collaborators index_template context = Ok content
    ∧ os.read_file (fs w') ["site"; "index.html"] = Ok content.
Proof.
  intros self w'.
  destruct (@index_md_shares_the_index_path sample_collaborators self sample_world w')
    as [_ Hindex].
  apply Hindex. vm_compute. reflexivity.
Defined.
